(** * MudrasNoni: gesture recognition and particle lifecycle

    A shallow embedding of the two stateful classes of the script,
    [MediaPipeHandTracker] (gesture detection, trigger policy) and
    [ParticleSystem] (constellation spawn and per-tick update).

    Conventions of the embedding:
    - a JavaScript number is an ideal real ([R]); rounding of IEEE doubles and
      NaN are outside the model;
    - [Date.now()] is an integer number of milliseconds ([Z]);
    - an array is a [list]; reading index 0 of an empty array yields
      [undefined], and reading a property of [undefined] throws: the
      completion type [Completion] records that;
    - object fields mutated in place become explicit state passing;
    - [Math.random()] is an oracle [random : nat -> R] read at a counter kept
      in the particle system state;
    - DOM updates, canvas drawing and console output are not modelled. *)

From Stdlib Require Import Reals Lra Lia ZArith String Bool List.
Import ListNotations.
Open Scope R_scope.

(** ** Numbers and comparisons *)

Definition Rltb (a b : R) : bool := if Rlt_dec a b then true else false.

(** The spec's [clamp(v, lo, hi)]. *)
Definition clamp (v lo hi : R) : R := Rmax lo (Rmin v hi).

(** ** Completions: a call returns or throws *)

Inductive Completion (A : Type) : Type :=
| Normal (a : A)
| Throw.
Arguments Normal {A} a.
Arguments Throw {A}.

Definition bind {A B : Type} (c : Completion A) (k : A -> Completion B)
  : Completion B :=
  match c with
  | Normal a => k a
  | Throw => Throw
  end.

Notation "x <- c ;; k" := (bind c (fun x => k))
  (at level 61, c at next level, right associativity).

(** ** Geometry utilities *)

Record Point3D : Type := mkPoint { px : R; py : R; pz : R }.

(** A hand is the array of landmarks delivered by the tracker. *)
Definition Hand : Type := list Point3D.

(** [calculateDistance(point1, point2)] *)
Definition calculateDistance (point1 point2 : Point3D) : R :=
  let dx := px point1 - px point2 in
  let dy := py point1 - py point2 in
  let dz := pz point1 - pz point2 in
  sqrt (dx * dx + dy * dy + dz * dz).

(** The accumulation [sum += f(landmark)] of a [forEach]. *)
Definition sumOver (f : Point3D -> R) (landmarks : Hand) : R :=
  fold_left (fun acc landmark => acc + f landmark) landmarks 0.

(** [calculateHandCenter(landmarks)].  On an empty array JavaScript yields
    NaN coordinates; the classifier never reaches that case, because reading the
    wrist of an empty hand throws first. *)
Definition calculateHandCenter (landmarks : Hand) : Point3D :=
  let sumX := sumOver px landmarks in
  let sumY := sumOver py landmarks in
  let sumZ := sumOver pz landmarks in
  {| px := sumX / INR (length landmarks);
     py := sumY / INR (length landmarks);
     pz := sumZ / INR (length landmarks) |}.

(** The loop of [calculateHandMovement]: [i] runs below the shorter length. *)
Fixpoint totalMovement (acc : R) (currentHand previousHand : Hand) : R :=
  match currentHand, previousHand with
  | c :: cs, p :: ps => totalMovement (acc + calculateDistance c p) cs ps
  | _, _ => acc
  end.

(** [calculateHandMovement(currentHand, previousHand)].  The guard
    [!previousHand || !currentHand] never fires on arrays. *)
Definition calculateHandMovement (currentHand previousHand : Hand) : R :=
  totalMovement 0 currentHand previousHand / INR (length currentHand).

(** ** Particle system *)

Module ParticleSystem.

Inductive Phase : Type := spawning | floating | dying.

Record Particle : Type :=
  { id : nat;
    x : R; y : R;
    targetX : R; targetY : R;
    size : R;
    color : string;
    alpha : R;
    velocityX : R; velocityY : R;
    rotationSpeed : R;
    rotation : R;
    age : R;
    maxAge : R;
    phase : Phase }.

(** A template anchor, in normalized coordinates. *)
Record Anchor : Type := mkAnchor { ax : R; ay : R }.

Record State : Type :=
  { canvasWidth : R;
    canvasHeight : R;
    particles : list Particle;
    isActive : bool;
    animationId : option positive;
    lastTime : R;
    draws : nat (* calls to Math.random() made so far *) }.

(** [generateTigerSilhouette()], stored in [this.tigerTemplate]. *)
Definition generateTigerSilhouette : list Anchor :=
  [ (* head outline *)
    mkAnchor 0.5 0.3; mkAnchor 0.52 0.28; mkAnchor 0.55 0.27;
    mkAnchor 0.58 0.29; mkAnchor 0.6 0.32; mkAnchor 0.61 0.35;
    mkAnchor 0.6 0.38; mkAnchor 0.58 0.41; mkAnchor 0.55 0.43;
    mkAnchor 0.52 0.44; mkAnchor 0.5 0.45; mkAnchor 0.48 0.44;
    mkAnchor 0.45 0.43; mkAnchor 0.42 0.41; mkAnchor 0.4 0.38;
    mkAnchor 0.39 0.35; mkAnchor 0.4 0.32; mkAnchor 0.42 0.29;
    mkAnchor 0.45 0.27; mkAnchor 0.48 0.28;
    (* ears *)
    mkAnchor 0.45 0.25; mkAnchor 0.43 0.22; mkAnchor 0.47 0.24;
    mkAnchor 0.55 0.25; mkAnchor 0.57 0.22; mkAnchor 0.53 0.24;
    (* body outline *)
    mkAnchor 0.5 0.45; mkAnchor 0.48 0.5; mkAnchor 0.46 0.55;
    mkAnchor 0.45 0.6; mkAnchor 0.44 0.65; mkAnchor 0.46 0.7;
    mkAnchor 0.5 0.72; mkAnchor 0.54 0.7; mkAnchor 0.56 0.65;
    mkAnchor 0.55 0.6; mkAnchor 0.54 0.55; mkAnchor 0.52 0.5;
    (* eyes, nose, mouth *)
    mkAnchor 0.47 0.35; mkAnchor 0.53 0.35;
    mkAnchor 0.5 0.38;
    mkAnchor 0.48 0.41; mkAnchor 0.52 0.41 ].

Definition tigerTemplate : list Anchor := generateTigerSilhouette.

Definition tigerColors : list (R * string) :=
  [ (0.3, "#FF6B35"%string); (0.25, "#FF8C42"%string);
    (0.2, "#FF5722"%string); (0.15, "#FFD700"%string);
    (0.08, "#FFA000"%string); (0.02, "#2C1810"%string) ].

(** The weighted loop of [getRandomTigerColor]; the fallback is the first
    colour. *)
Fixpoint pickColor (random : R) (table : list (R * string)) : string :=
  match table with
  | [] => "#FF6B35"%string
  | (weight, c) :: rest =>
      let random' := random - weight in
      if Rltb 0 random' then pickColor random' rest else c
  end.

Definition getRandomTigerColor (r : R) : string := pickColor r tigerColors.

(** [a || b] on numbers: zero is falsy. *)
Definition orElse (a b : R) : R := if Req_dec_T a 0 then b else a.

Section Spawn.

(** [Math.random()]: the [n]-th value drawn. *)
Variable random : nat -> R.

(** The body of the [forEach] callback of [spawnTigerConstellation]; [d] is
    the number of values drawn before it runs.  It draws nine values, in the
    order the source evaluates them. *)
Definition makeParticle (screenCenterX screenCenterY particleScale : R)
    (point : Anchor) (index d : nat) : Particle :=
  let screenX := screenCenterX + (ax point - 0.5) * particleScale in
  let screenY := screenCenterY + (ay point - 0.5) * particleScale in
  let offsetX := (random d - 0.5) * 20 in
  let offsetY := (random (d + 1) - 0.5) * 20 in
  {| id := index;
     x := screenX + offsetX;
     y := screenY + offsetY;
     targetX := screenX;
     targetY := screenY;
     size := 3 + random (d + 2) * 4;
     color := getRandomTigerColor (random (d + 3));
     alpha := 0;
     velocityX := (random (d + 4) - 0.5) * 2;
     velocityY := (random (d + 5) - 0.5) * 2;
     rotationSpeed := (random (d + 6) - 0.5) * 0.1;
     rotation := random (d + 7) * PI * 2;
     age := 0;
     maxAge := 5000 + random (d + 8) * 3000;
     phase := spawning |}.

(** [this.tigerTemplate.forEach((point, index) => ... push(particle))],
    started at [index] with [acc] already pushed. *)
Fixpoint pushParticles (cx cy particleScale : R) (template : list Anchor)
    (index d : nat) (acc : list Particle) : list Particle * nat :=
  match template with
  | [] => (acc, d)
  | point :: rest =>
      pushParticles cx cy particleScale rest (S index) (d + 9)
        (acc ++ [makeParticle cx cy particleScale point index d])
  end.

(** [startAnimation()]: [now] is [performance.now()], [handle] the id that
    [requestAnimationFrame] returns. *)
Definition startAnimation (now : R) (handle : positive) (s : State) : State :=
  match animationId s with
  | Some _ => s
  | None =>
      {| canvasWidth := canvasWidth s; canvasHeight := canvasHeight s;
         particles := particles s; isActive := isActive s;
         animationId := Some handle; lastTime := now; draws := draws s |}
  end.

(** [spawnTigerConstellation(centerX, centerY, scale)] *)
Definition spawnTigerConstellation (centerX centerY scale : R)
    (now : R) (handle : positive) (s : State) : State :=
  let screenCenterX := orElse centerX (canvasWidth s / 2) in
  let screenCenterY := orElse centerY (canvasHeight s / 2) in
  let particleScale :=
    scale * Rmin (canvasWidth s) (canvasHeight s) * 0.3 in
  let '(ps, d) :=
    pushParticles screenCenterX screenCenterY particleScale tigerTemplate
      0%nat (draws s) [] in
  startAnimation now handle
    {| canvasWidth := canvasWidth s; canvasHeight := canvasHeight s;
       particles := ps; isActive := true;
       animationId := animationId s; lastTime := lastTime s; draws := d |}.

End Spawn.

(** The phase chosen by the [if] chain of [updateParticles]. *)
Definition phaseOf (age maxAge : R) : Phase :=
  if Rltb age 500 then spawning
  else if Rltb age (maxAge - 1000) then floating
  else dying.

(** The [switch] on the phase. *)
Definition alphaOf (ph : Phase) (age maxAge : R) : R :=
  match ph with
  | spawning => Rmin 1 (age / 500)
  | floating => 1
  | dying =>
      let dyingProgress := (age - (maxAge - 1000)) / 1000 in
      Rmax 0 (1 - dyingProgress)
  end.

(** The in-place update made by the [filter] callback of
    [updateParticles]. *)
Definition updateParticle (deltaTime : R) (p : Particle) : Particle :=
  let age1 := age p + deltaTime in
  let phase1 := phaseOf age1 (maxAge p) in
  let alpha1 := alphaOf phase1 age1 (maxAge p) in
  let time := age1 * 0.001 in
  let vx1 := velocityX p + sin (time * 2 + INR (id p)) * 0.02 in
  let vy1 := velocityY p + cos (time * 1.5 + INR (id p)) * 0.02 in
  let x1 := x p + vx1 in
  let y1 := y p + vy1 in
  let vx2 := vx1 * 0.98 in
  let vy2 := vy1 * 0.98 in
  let attractionStrength := 0.02 in
  let vx3 := vx2 + (targetX p - x1) * attractionStrength in
  let vy3 := vy2 + (targetY p - y1) * attractionStrength in
  {| id := id p;
     x := x1; y := y1;
     targetX := targetX p; targetY := targetY p;
     size := size p;
     color := color p;
     alpha := alpha1;
     velocityX := vx3; velocityY := vy3;
     rotationSpeed := rotationSpeed p;
     rotation := rotation p + rotationSpeed p;
     age := age1;
     maxAge := maxAge p;
     phase := phase1 |}.

(** The value the callback returns: keep the particle. *)
Definition alive (p : Particle) : bool := Rltb (age p) (maxAge p).

(** [updateParticles(deltaTime)]: every particle is updated, the dead ones
    are dropped. *)
Definition updateParticles (deltaTime : R) (ps : list Particle)
  : list Particle :=
  filter alive (map (updateParticle deltaTime) ps).

(** The [animate] callback of [startAnimation], run at [currentTime];
    [handle] is the id of the next frame request. *)
Definition animate (currentTime : R) (handle : positive) (s : State) : State :=
  if negb (isActive s) then s
  else
    let deltaTime := currentTime - lastTime s in
    let ps := updateParticles deltaTime (particles s) in
    match ps with
    | [] =>
        {| canvasWidth := canvasWidth s; canvasHeight := canvasHeight s;
           particles := ps; isActive := false;
           animationId := None; lastTime := currentTime; draws := draws s |}
    | _ :: _ =>
        {| canvasWidth := canvasWidth s; canvasHeight := canvasHeight s;
           particles := ps; isActive := isActive s;
           animationId := Some handle; lastTime := currentTime;
           draws := draws s |}
    end.

(** Successive frame callbacks, oldest first, each with its timestamp and
    the id of the request it makes. *)
Fixpoint animateAll (frames : list (R * positive)) (s : State) : State :=
  match frames with
  | [] => s
  | (currentTime, handle) :: rest =>
      animateAll rest (animate currentTime handle s)
  end.

(** [stopAnimation()] *)
Definition stopAnimation (s : State) : State :=
  {| canvasWidth := canvasWidth s; canvasHeight := canvasHeight s;
     particles := []; isActive := false;
     animationId := None; lastTime := lastTime s; draws := draws s |}.

End ParticleSystem.

(** ** Gesture classifier *)

Module Tracker.

(** [this.previousHands]: unset, or the pair stored by the last call. *)
Record PreviousHands : Type := { left : Hand; right : Hand }.

(** [calculateHandStability(leftHand, rightHand)]: the score and the new
    value of [this.previousHands]. *)
Definition calculateHandStability (previousHands : option PreviousHands)
    (leftHand rightHand : Hand) : R * option PreviousHands :=
  match previousHands with
  | None => (0.5, Some {| left := leftHand; right := rightHand |})
  | Some prev =>
      let leftMovement := calculateHandMovement leftHand (left prev) in
      let rightMovement := calculateHandMovement rightHand (right prev) in
      let avgMovement := (leftMovement + rightMovement) / 2 in
      (Rmax 0 (1 - avgMovement * 10),
       Some {| left := leftHand; right := rightHand |})
  end.

Record Metrics : Type :=
  { wristDistance : R; centerDistance : R; stability : R }.

Record GestureResult : Type :=
  { detected : bool;
    confidence : R;
    metrics : option Metrics;
    reason : string }.

(** Lines 382-397 of [detectBasicGesture]: the gates and the score, as a
    function of the three measurements. *)
Definition gestureScore (wristDistance centerDistance stability : R)
  : bool * R :=
  let isClose := Rltb wristDistance 0.25 && Rltb centerDistance 0.20 in
  let isStable := Rltb 0.7 stability in
  let detected := isClose && isStable in
  let confidence :=
    if detected then
      let proximityScore := Rmax 0 (1 - wristDistance / 0.25) in
      let stabilityScore := stability in
      proximityScore * 0.7 + stabilityScore * 0.3
    else 0 in
  (detected, Rmin confidence 1).

(** [array[0]] followed by a property read. *)
Definition first (h : Hand) : Completion Point3D :=
  match h with
  | w :: _ => Normal w
  | [] => Throw
  end.

(** [detectBasicGesture(hands)].  [None] stands for a null or undefined
    argument. *)
Definition detectBasicGesture (previousHands : option PreviousHands)
    (hands : option (list Hand))
  : Completion (GestureResult * option PreviousHands) :=
  match hands with
  | Some [leftHand; rightHand] =>
      w1 <- first leftHand ;;
      w2 <- first rightHand ;;
      let wristDistance := calculateDistance w1 w2 in
      let leftCenter := calculateHandCenter leftHand in
      let rightCenter := calculateHandCenter rightHand in
      let centerDistance := calculateDistance leftCenter rightCenter in
      let '(stability, previousHands') :=
        calculateHandStability previousHands leftHand rightHand in
      let '(detected, confidence) :=
        gestureScore wristDistance centerDistance stability in
      Normal
        ({| detected := detected;
            confidence := confidence;
            metrics := Some {| wristDistance := wristDistance;
                               centerDistance := centerDistance;
                               stability := stability |};
            reason := if detected then "Hands positioned for gesture"%string
                      else "Hands too far apart or unstable"%string |},
         previousHands')
  | _ =>
      Normal
        ({| detected := false;
            confidence := 0;
            metrics := None;
            reason := "Need exactly 2 hands"%string |},
         previousHands)
  end.

(** [this.gestureState].  The object literals of the source have no
    [lastTrigger] key; the field is [None] until it is assigned. *)
Record GestureState : Type :=
  { stateDetected : bool;
    stateConfidence : R;
    stateMetrics : option Metrics;
    lastUpdate : Z;
    lastTrigger : option Z }.

(** The fields of [MediaPipeHandTracker] that gesture processing reads or
    writes; [canvasWidth] and [canvasHeight] are those of the landmark
    canvas. *)
Record State : Type :=
  { canvasWidth : R;
    canvasHeight : R;
    currentHands : list Hand;
    gestureState : GestureState;
    previousHands : option PreviousHands;
    particleSystem : option ParticleSystem.State }.

(** What one delivered frame brings: the hands found, and the values the
    environment returns during its processing ([Date.now()],
    [performance.now()], the id of a frame request).  The two reads of
    [Date.now()] in [processGestures] are taken to return the same value. *)
Record Frame : Type :=
  { multiHandLandmarks : list Hand;
    dateNow : Z;
    perfNow : R;
    frameHandle : positive }.

(** The console line written by a spawn: its centre. *)
Inductive Event : Type := TigerSpawned (centerX centerY : R).

Definition setGesture (t : State) (g : GestureState)
    (prev : option PreviousHands) : State :=
  {| canvasWidth := canvasWidth t; canvasHeight := canvasHeight t;
     currentHands := currentHands t; gestureState := g;
     previousHands := prev; particleSystem := particleSystem t |}.

Definition setLastTrigger (t : State) (now : Z) : State :=
  let g := gestureState t in
  setGesture t
    {| stateDetected := stateDetected g; stateConfidence := stateConfidence g;
       stateMetrics := stateMetrics g; lastUpdate := lastUpdate g;
       lastTrigger := Some now |}
    (previousHands t).

(** The cooldown test
    [!this.gestureState.lastTrigger || (now - this.gestureState.lastTrigger > 3000)];
    an unset field and the number 0 are falsy. *)
Definition cooldownElapsed (g : GestureState) (now : Z) : bool :=
  match lastTrigger g with
  | None => true
  | Some t => ((t =? 0) || (3000 <? now - t))%Z
  end.

Section Processing.

Variable random : nat -> R.

(** [triggerTigerConstellation()] *)
Definition triggerTigerConstellation (f : Frame) (t : State)
  : State * list Event :=
  match particleSystem t with
  | None => (t, [])
  | Some ps =>
      let '(centerX, centerY) :=
        match currentHands t with
        | [hand0; hand1] =>
            let leftCenter := calculateHandCenter hand0 in
            let rightCenter := calculateHandCenter hand1 in
            ((px leftCenter + px rightCenter) / 2 * canvasWidth t,
             (py leftCenter + py rightCenter) / 2 * canvasHeight t)
        | _ => (canvasWidth t / 2, canvasHeight t / 2)
        end in
      let ps' :=
        ParticleSystem.spawnTigerConstellation random centerX centerY 1
          (perfNow f) (frameHandle f) ps in
      ({| canvasWidth := canvasWidth t; canvasHeight := canvasHeight t;
          currentHands := currentHands t; gestureState := gestureState t;
          previousHands := previousHands t; particleSystem := Some ps' |},
       [TigerSpawned centerX centerY])
  end.

(** [processGestures()] *)
Definition processGestures (f : Frame) (t : State)
  : Completion (State * list Event) :=
  if (length (currentHands t) =? 2)%nat then
    r <- detectBasicGesture (previousHands t) (Some (currentHands t)) ;;
    let '(gestureResult, previousHands') := r in
    let t1 :=
      setGesture t
        {| stateDetected := detected gestureResult;
           stateConfidence := confidence gestureResult;
           stateMetrics := metrics gestureResult;
           lastUpdate := dateNow f;
           lastTrigger := None |}
        previousHands' in
    if detected gestureResult && Rltb 0.8 (confidence gestureResult) then
      let now := dateNow f in
      if cooldownElapsed (gestureState t1) now then
        let '(t2, log) := triggerTigerConstellation f t1 in
        Normal (setLastTrigger t2 now, log)
      else Normal (t1, [])
    else Normal (t1, [])
  else
    Normal
      (setGesture t
         {| stateDetected := false; stateConfidence := 0;
            stateMetrics := None; lastUpdate := dateNow f;
            lastTrigger := None |}
         (previousHands t),
       []).

(** [onResults(results)], restricted to gesture processing.  An exception
    is caught and logged; nothing was assigned before it was thrown. *)
Definition onResults (f : Frame) (t : State) : State * list Event :=
  let t0 :=
    {| canvasWidth := canvasWidth t; canvasHeight := canvasHeight t;
       currentHands := multiHandLandmarks f; gestureState := gestureState t;
       previousHands := previousHands t;
       particleSystem := particleSystem t |} in
  match processGestures f t0 with
  | Normal r => r
  | Throw => (t0, [])
  end.

(** A stream of delivered frames, oldest first, with the console lines it
    writes. *)
Fixpoint run (frames : list Frame) (t : State) : State * list Event :=
  match frames with
  | [] => (t, [])
  | f :: rest =>
      let '(t1, log1) := onResults f t in
      let '(t2, log2) := run rest t1 in
      (t2, log1 ++ log2)
  end.

(** The frames on which a spawn fired, in order. *)
Fixpoint spawnFrames (frames : list Frame) (t : State) : list Z :=
  match frames with
  | [] => []
  | f :: rest =>
      let '(t1, log1) := onResults f t in
      match log1 with
      | [] => spawnFrames rest t1
      | _ :: _ => dateNow f :: spawnFrames rest t1
      end
  end.

End Processing.

End Tracker.

(** ** The specification's per-slot stability, for comparison *)

Module Spec.

(** Section 4.1 of the specification: the stillness of one slot against its
    stored previous observation. *)
Definition slotStillness (current previous : Hand) : R :=
  clamp (1 - calculateHandMovement current previous * 10) 0 1.

(** Section 4.2, step 3: the mean of the two slots' stillness. *)
Definition stability (handA handB previousA previousB : Hand) : R :=
  (slotStillness handA previousA + slotStillness handB previousB) / 2.

End Spec.

(** ** Observations and sample data *)

(** The stability metric of a classification, when it has one. *)
Definition classifiedStability
    (c : Completion (Tracker.GestureResult * option Tracker.PreviousHands))
  : option R :=
  match c with
  | Normal (r, _) => option_map Tracker.stability (Tracker.metrics r)
  | Throw => None
  end.

(** The stability metric left in [gestureState]. *)
Definition storedStability (t : Tracker.State) : option R :=
  option_map Tracker.stability (Tracker.stateMetrics (Tracker.gestureState t)).

(** The high-confidence test of [processGestures] on a two-hand frame. *)
Definition qualifies (t : Tracker.State) (w1 w2 : Point3D) (l r : Hand)
  : bool :=
  let s :=
    fst (Tracker.calculateHandStability (Tracker.previousHands t)
           (w1 :: l) (w2 :: r)) in
  let sc :=
    Tracker.gestureScore (calculateDistance w1 w2)
      (calculateDistance (calculateHandCenter (w1 :: l))
         (calculateHandCenter (w2 :: r))) s in
  fst sc && Rltb 0.8 (snd sc).

(** Rank of a phase in the order spawning, floating, dying. *)
Definition phaseRank (ph : ParticleSystem.Phase) : nat :=
  match ph with
  | ParticleSystem.spawning => 0
  | ParticleSystem.floating => 1
  | ParticleSystem.dying => 2
  end.

Module Sample.

(** A hand whose 21 landmarks all sit at [(x, 0.5, 0)]. *)
Definition handAt (x : R) : Hand := repeat (mkPoint x 0.5 0) 21.

(** An oracle that always draws one half. *)
Definition half : nat -> R := fun _ => 0.5.

(** A freshly constructed particle system on a 640 by 480 canvas. *)
Definition freshParticles : ParticleSystem.State :=
  {| ParticleSystem.canvasWidth := 640;
     ParticleSystem.canvasHeight := 480;
     ParticleSystem.particles := [];
     ParticleSystem.isActive := false;
     ParticleSystem.animationId := None;
     ParticleSystem.lastTime := 0;
     ParticleSystem.draws := 0 |}.

(** The tracker after [init()], constructed at time 0. *)
Definition freshTracker : Tracker.State :=
  {| Tracker.canvasWidth := 640;
     Tracker.canvasHeight := 480;
     Tracker.currentHands := [];
     Tracker.gestureState :=
       {| Tracker.stateDetected := false; Tracker.stateConfidence := 0;
          Tracker.stateMetrics := None; Tracker.lastUpdate := 0%Z;
          Tracker.lastTrigger := None |};
     Tracker.previousHands := None;
     Tracker.particleSystem := Some freshParticles |}.

(** A frame delivered at [now] milliseconds. *)
Definition frameAt (now : Z) (hands : list Hand) : Tracker.Frame :=
  {| Tracker.multiHandLandmarks := hands;
     Tracker.dateNow := now;
     Tracker.perfNow := IZR now;
     Tracker.frameHandle := 1%positive |}.

(** Two motionless hands, wrists 0.02 apart. *)
Definition closeHands : list Hand := [handAt 0.49; handAt 0.51].

(** The hands stored after a frame showing [closeHands]. *)
Definition storedClose : Tracker.PreviousHands :=
  {| Tracker.left := handAt 0.49; Tracker.right := handAt 0.51 |}.

(** A particle of age [a] with a six second lifetime. *)
Definition particleAged (a : R) (ph : ParticleSystem.Phase)
  : ParticleSystem.Particle :=
  {| ParticleSystem.id := 0;
     ParticleSystem.x := 0; ParticleSystem.y := 0;
     ParticleSystem.targetX := 0; ParticleSystem.targetY := 0;
     ParticleSystem.size := 3;
     ParticleSystem.color := "#FF6B35"%string;
     ParticleSystem.alpha := 0;
     ParticleSystem.velocityX := 0; ParticleSystem.velocityY := 0;
     ParticleSystem.rotationSpeed := 0;
     ParticleSystem.rotation := 0;
     ParticleSystem.age := a;
     ParticleSystem.maxAge := 6000;
     ParticleSystem.phase := ph |}.

End Sample.

(** ** The rest of the tracker: drawing, metrics, test shortcuts *)

Module Display.
Import Tracker.

(** The skeleton table of [drawHandConnections]. *)
Definition connections : list (nat * nat) :=
  [ (0, 1); (1, 2); (2, 3); (3, 4);
    (0, 5); (5, 6); (6, 7); (7, 8);
    (0, 9); (9, 10); (10, 11); (11, 12);
    (0, 13); (13, 14); (14, 15); (15, 16);
    (0, 17); (17, 18); (18, 19); (19, 20);
    (5, 9); (9, 13); (13, 17) ]%nat.

(** [landmarks[i]] followed by a property read. *)
Definition landmarkAt (landmarks : Hand) (i : nat) : Completion Point3D :=
  match nth_error landmarks i with
  | Some p => Normal p
  | None => Throw
  end.

(** The [forEach] of [drawHandConnections]: each segment reads both of its
    end points.  The strokes themselves are not modelled. *)
Fixpoint drawSegments (table : list (nat * nat)) (landmarks : Hand)
  : Completion unit :=
  match table with
  | [] => Normal tt
  | (start, stop) :: rest =>
      _ <- landmarkAt landmarks start ;;
      _ <- landmarkAt landmarks stop ;;
      drawSegments rest landmarks
  end.

Definition drawHandConnections (landmarks : Hand) : Completion unit :=
  drawSegments connections landmarks.

(** [drawHandLandmarks(landmarks, handIndex)]: the dots (which read only
    the landmarks present), the skeleton, then the label at the wrist. *)
Definition drawHandLandmarks (landmarks : Hand) : Completion unit :=
  _ <- drawHandConnections landmarks ;;
  _ <- landmarkAt landmarks 0 ;;
  Normal tt.

(** [drawLandmarks(results)] *)
Fixpoint drawLandmarks (hands : list Hand) : Completion unit :=
  match hands with
  | [] => Normal tt
  | landmarks :: rest =>
      _ <- drawHandLandmarks landmarks ;;
      drawLandmarks rest
  end.

(** [onResults(results)] with its drawing step: the hands are stored, drawn,
    and only then processed; an exception thrown on the way ends the frame
    in the [catch]. *)
Definition onResultsDrawn (random : nat -> R) (f : Frame) (t : State)
  : State * list Event :=
  let t0 :=
    {| canvasWidth := canvasWidth t; canvasHeight := canvasHeight t;
       currentHands := multiHandLandmarks f; gestureState := gestureState t;
       previousHands := previousHands t;
       particleSystem := particleSystem t |} in
  match drawLandmarks (multiHandLandmarks f) with
  | Throw => (t0, [])
  | Normal _ =>
      match processGestures random f t0 with
      | Normal r => r
      | Throw => (t0, [])
      end
  end.

(** [Math.round] *)
Definition round (v : R) : Z := Int_part (v + 0.5).

(** The counters of [updatePerformanceMetrics]. *)
Record Perf : Type :=
  { frameCount : nat;
    lastTime : R;
    fps : Z }.

(** [updatePerformanceMetrics()], run at [performance.now() = currentTime]. *)
Definition updatePerformanceMetrics (currentTime : R) (m : Perf) : Perf :=
  let count := S (frameCount m) in
  if Rle_dec (lastTime m + 1000) currentTime then
    {| frameCount := 0;
       lastTime := currentTime;
       fps := round (INR count * 1000 / (currentTime - lastTime m)) |}
  else
    {| frameCount := count; lastTime := lastTime m; fps := fps m |}.

(** The status class chosen for the frame rate. *)
Definition fpsClass (rate : Z) : string :=
  if (25 <=? rate)%Z then "success"%string
  else if (15 <=? rate)%Z then "warning"%string
  else "error"%string.

(** [calibrateTigerDetection()]: the result it prints, if it gets that far,
    and the tracker it leaves. *)
Definition calibrateTigerDetection (t : State)
  : Completion (State * option GestureResult) :=
  if negb (length (currentHands t) =? 2)%nat then Normal (t, None)
  else
    r <- detectBasicGesture (previousHands t) (Some (currentHands t)) ;;
    let '(result, previousHands') := r in
    Normal (setGesture t (gestureState t) previousHands', Some result).

(** [runTigerDetectionTests()]: the messages of the assertions that fail,
    the result printed by test 3, and the tracker it leaves. *)
Definition runTigerDetectionTests (t : State)
  : Completion (State * list string * option GestureResult) :=
  r1 <- detectBasicGesture (previousHands t) (Some []) ;;
  let '(noHandsResult, prev1) := r1 in
  let failed1 :=
    if detected noHandsResult
    then ["Should not detect gesture with no hands"%string] else [] in
  r2 <- match currentHands t with
        | [] => Normal ([], prev1)
        | hand0 :: _ =>
            r <- detectBasicGesture prev1 (Some [hand0]) ;;
            let '(oneHandResult, prev2) := r in
            Normal
              (if detected oneHandResult
               then ["Should not detect gesture with one hand"%string]
               else [],
               prev2)
        end ;;
  let '(failed2, prev2) := r2 in
  if (length (currentHands t) =? 2)%nat then
    r3 <- detectBasicGesture prev2 (Some (currentHands t)) ;;
    let '(currentResult, prev3) := r3 in
    Normal (setGesture t (gestureState t) prev3, failed1 ++ failed2,
            Some currentResult)
  else
    Normal (setGesture t (gestureState t) prev2, failed1 ++ failed2, None).

End Display.

(** ** The particle engine as a machine *)

Module Engine.
Import ParticleSystem.

(** What can happen to a particle system after its construction. *)
Inductive Op : Type :=
| Spawn (centerX centerY scale now : R) (handle : positive)
| FrameCallback (currentTime : R) (handle : positive)
| Stop
| Resize (width height : R).

(** [new ParticleSystem(canvasId)] on a canvas of the given size. *)
Definition constructed (width height : R) : State :=
  {| canvasWidth := width; canvasHeight := height;
     particles := []; isActive := false;
     animationId := None; lastTime := 0; draws := 0 |}.

(** [resizeCanvas()] *)
Definition resizeCanvas (width height : R) (s : State) : State :=
  {| canvasWidth := width; canvasHeight := height;
     particles := particles s; isActive := isActive s;
     animationId := animationId s; lastTime := lastTime s;
     draws := draws s |}.

Definition step (random : nat -> R) (s : State) (op : Op) : State :=
  match op with
  | Spawn centerX centerY scale now handle =>
      spawnTigerConstellation random centerX centerY scale now handle s
  | FrameCallback currentTime handle => animate currentTime handle s
  | Stop => stopAnimation s
  | Resize width height => resizeCanvas width height s
  end.

Definition steps (random : nat -> R) (ops : list Op) (s : State) : State :=
  fold_left (step random) ops s.

End Engine.

(** * Properties *)

(** ** Comparisons and geometry *)

Lemma Rltb_true (a b : R) : Rltb a b = true <-> a < b.
Proof. unfold Rltb; destruct (Rlt_dec a b); split; intros; try easy. Qed.

Lemma Rltb_false (a b : R) : Rltb a b = false <-> b <= a.
Proof.
  unfold Rltb; destruct (Rlt_dec a b); split; intros; try easy; lra.
Qed.

Lemma calculateDistance_nonneg (p q : Point3D) : 0 <= calculateDistance p q.
Proof. apply sqrt_pos. Qed.

Lemma calculateDistance_along_x (p q : Point3D) :
  py p = py q -> pz p = pz q ->
  calculateDistance p q = Rabs (px p - px q).
Proof.
  intros Hy Hz. unfold calculateDistance. cbv zeta.
  rewrite Hy, Hz, <- sqrt_Rsqr_abs. f_equal. unfold Rsqr. ring.
Qed.

Lemma calculateDistance_same (p : Point3D) : calculateDistance p p = 0.
Proof.
  rewrite calculateDistance_along_x by reflexivity.
  replace (px p - px p) with 0 by ring. apply Rabs_R0.
Qed.

Lemma totalMovement_acc (cur prev : Hand) (acc : R) :
  totalMovement acc cur prev = acc + totalMovement 0 cur prev.
Proof.
  revert prev acc. induction cur as [|c cs IH]; intros [|p ps] acc; simpl;
    try lra.
  rewrite (IH ps (acc + _)), (IH ps (0 + _)). lra.
Qed.

Lemma totalMovement_nonneg (cur prev : Hand) :
  0 <= totalMovement 0 cur prev.
Proof.
  revert prev. induction cur as [|c cs IH]; intros [|p ps]; simpl; try lra.
  rewrite totalMovement_acc.
  pose proof (calculateDistance_nonneg c p). pose proof (IH ps). lra.
Qed.

Lemma calculateHandMovement_nonneg (cur prev : Hand) :
  0 <= calculateHandMovement cur prev.
Proof.
  unfold calculateHandMovement, Rdiv.
  apply Rmult_le_pos; [apply totalMovement_nonneg|].
  destruct cur as [|c cs]; [simpl; rewrite Rinv_0; lra|].
  left; apply Rinv_0_lt_compat, lt_0_INR; simpl; lia.
Qed.

Lemma totalMovement_repeat (p q : Point3D) (n : nat) :
  totalMovement 0 (repeat p n) (repeat q n) = INR n * calculateDistance p q.
Proof.
  induction n as [|n IH]; [simpl; lra|].
  cbn [repeat totalMovement]. rewrite totalMovement_acc, IH, S_INR. lra.
Qed.

Lemma calculateHandMovement_repeat (p q : Point3D) (n : nat) :
  calculateHandMovement (repeat p (S n)) (repeat q (S n))
  = calculateDistance p q.
Proof.
  unfold calculateHandMovement.
  rewrite totalMovement_repeat, repeat_length.
  field. apply not_0_INR; lia.
Qed.

Lemma sumOver_acc (f : Point3D -> R) (h : Hand) (acc : R) :
  fold_left (fun a l => a + f l) h acc = acc + sumOver f h.
Proof.
  unfold sumOver. revert acc. induction h as [|p ps IH]; intros acc; simpl;
    [lra|].
  rewrite (IH (acc + f p)), (IH (0 + f p)). lra.
Qed.

Lemma sumOver_repeat (f : Point3D -> R) (p : Point3D) (n : nat) :
  sumOver f (repeat p n) = INR n * f p.
Proof.
  induction n as [|n IH]; [unfold sumOver; simpl; lra|].
  unfold sumOver in *. cbn [repeat fold_left].
  rewrite sumOver_acc. unfold sumOver. rewrite IH, S_INR. lra.
Qed.

Lemma calculateHandCenter_repeat (p : Point3D) (n : nat) :
  calculateHandCenter (repeat p (S n)) = p.
Proof.
  unfold calculateHandCenter. cbv zeta.
  rewrite !sumOver_repeat, repeat_length.
  assert (INR (S n) <> 0) by (apply not_0_INR; lia).
  destruct p as [a b c]; cbn [px py pz]. f_equal; field; assumption.
Qed.

(** ** The classifier *)

Module ClassifierLemmas.
Import Tracker.

Ltac split_real_cases :=
  unfold clamp, Rmin, Rmax in *;
  repeat match goal with
         | |- context [Rle_dec ?a ?b] => destruct (Rle_dec a b)
         | H : context [Rle_dec ?a ?b] |- _ => destruct (Rle_dec a b)
         end.

Lemma gestureScore_detected (wd cd s : R) :
  fst (gestureScore wd cd s) = true <-> wd < 0.25 /\ cd < 0.20 /\ 0.7 < s.
Proof.
  unfold gestureScore. cbn [fst].
  rewrite !andb_true_iff, !Rltb_true. tauto.
Qed.

Lemma gestureScore_undetected (wd cd s : R) :
  fst (gestureScore wd cd s) = false -> snd (gestureScore wd cd s) = 0.
Proof.
  unfold gestureScore. cbn [fst snd]. intros ->.
  split_real_cases; lra.
Qed.

Lemma gestureScore_when_detected (wd cd s : R) :
  fst (gestureScore wd cd s) = true ->
  snd (gestureScore wd cd s)
  = Rmin (Rmax 0 (1 - wd / 0.25) * 0.7 + s * 0.3) 1.
Proof. unfold gestureScore. cbn [fst snd]. intros ->. reflexivity. Qed.

Lemma calculateHandStability_range (prev : option PreviousHands)
    (l r : Hand) :
  0 <= fst (calculateHandStability prev l r) <= 1.
Proof.
  destruct prev as [p|]; cbn [calculateHandStability fst]; [|lra].
  pose proof (calculateHandMovement_nonneg l (left p)).
  pose proof (calculateHandMovement_nonneg r (right p)).
  split_real_cases; lra.
Qed.

Lemma calculateHandStability_stores (prev : option PreviousHands)
    (l r : Hand) :
  snd (calculateHandStability prev l r) = Some {| left := l; right := r |}.
Proof. destruct prev; reflexivity. Qed.

(** What a two-hand call returns, once both wrists are there. *)
Lemma detectBasicGesture_two_hands (prev : option PreviousHands)
    (w1 w2 : Point3D) (l r : Hand) :
  let wd := calculateDistance w1 w2 in
  let cd := calculateDistance (calculateHandCenter (w1 :: l))
              (calculateHandCenter (w2 :: r)) in
  let s := fst (calculateHandStability prev (w1 :: l) (w2 :: r)) in
  detectBasicGesture prev (Some [w1 :: l; w2 :: r])
  = Normal
      ({| detected := fst (gestureScore wd cd s);
          confidence := snd (gestureScore wd cd s);
          metrics := Some {| wristDistance := wd; centerDistance := cd;
                             stability := s |};
          reason := if fst (gestureScore wd cd s)
                    then "Hands positioned for gesture"%string
                    else "Hands too far apart or unstable"%string |},
       Some {| left := w1 :: l; right := w2 :: r |}).
Proof.
  intros wd cd s. unfold detectBasicGesture. cbn [first bind].
  fold wd cd.
  rewrite (surjective_pairing (calculateHandStability prev (w1 :: l) (w2 :: r))).
  fold s. rewrite calculateHandStability_stores.
  rewrite (surjective_pairing (gestureScore wd cd s)). reflexivity.
Qed.

(** Every returned result is either the wrong-count record or carries the
    three measurements its verdict and confidence were computed from. *)
Lemma detectBasicGesture_scored (prev prev' : option PreviousHands)
    (hands : option (list Hand)) (res : GestureResult) :
  detectBasicGesture prev hands = Normal (res, prev') ->
  (detected res = false /\ confidence res = 0 /\ metrics res = None)
  \/ exists m,
       metrics res = Some m
       /\ detected res
          = fst (gestureScore (wristDistance m) (centerDistance m) (stability m))
       /\ confidence res
          = snd (gestureScore (wristDistance m) (centerDistance m) (stability m))
       /\ 0 <= wristDistance m
       /\ 0 <= stability m <= 1.
Proof.
  intros H.
  destruct hands as [[|l [|r [|x xs]]]|];
    try (cbn in H; injection H as <- <-; left; repeat split; reflexivity).
  destruct l as [|w1 l]; [discriminate|].
  destruct r as [|w2 r]; [discriminate|].
  rewrite detectBasicGesture_two_hands in H. injection H as <- <-.
  right. eexists. split; [reflexivity|]. cbn.
  repeat split; try apply calculateDistance_nonneg;
    apply calculateHandStability_range.
Qed.

(** Every returned result is either the wrong-count record, or the result
    of measuring two hands that both have a wrist. *)
Lemma detectBasicGesture_measured (prev prev' : option PreviousHands)
    (hands : option (list Hand)) (res : GestureResult) :
  detectBasicGesture prev hands = Normal (res, prev') ->
  (detected res = false /\ confidence res = 0 /\ metrics res = None)
  \/ exists w1 l w2 r,
       hands = Some [w1 :: l; w2 :: r]
       /\ detected res
          = fst (gestureScore (calculateDistance w1 w2)
                   (calculateDistance (calculateHandCenter (w1 :: l))
                      (calculateHandCenter (w2 :: r)))
                   (fst (calculateHandStability prev (w1 :: l) (w2 :: r))))
       /\ confidence res
          = snd (gestureScore (calculateDistance w1 w2)
                   (calculateDistance (calculateHandCenter (w1 :: l))
                      (calculateHandCenter (w2 :: r)))
                   (fst (calculateHandStability prev (w1 :: l) (w2 :: r))))
       /\ metrics res
          = Some {| wristDistance := calculateDistance w1 w2;
                    centerDistance :=
                      calculateDistance (calculateHandCenter (w1 :: l))
                        (calculateHandCenter (w2 :: r));
                    stability :=
                      fst (calculateHandStability prev (w1 :: l) (w2 :: r)) |}.
Proof.
  intros H.
  destruct hands as [[|l [|r [|x xs]]]|];
    try (cbn in H; injection H as <- <-; left; repeat split; reflexivity).
  destruct l as [|w1 l]; [discriminate|].
  destruct r as [|w2 r]; [discriminate|].
  rewrite detectBasicGesture_two_hands in H. injection H as <- <-.
  right. exists w1, l, w2, r. repeat split.
Qed.

End ClassifierLemmas.

(** ** The sample hands *)

Module SampleFacts.
Import Tracker Sample.

Lemma handAt_cons (a : R) :
  handAt a = mkPoint a 0.5 0 :: repeat (mkPoint a 0.5 0) 20.
Proof. reflexivity. Qed.

Lemma center_handAt (a : R) : calculateHandCenter (handAt a) = mkPoint a 0.5 0.
Proof. apply (calculateHandCenter_repeat _ 20). Qed.

Lemma distance_on_row (a b : R) :
  calculateDistance (mkPoint a 0.5 0) (mkPoint b 0.5 0) = Rabs (a - b).
Proof. apply calculateDistance_along_x; reflexivity. Qed.

Lemma movement_handAt (a b : R) :
  calculateHandMovement (handAt a) (handAt b) = Rabs (a - b).
Proof.
  unfold handAt. rewrite (calculateHandMovement_repeat _ _ 20).
  apply distance_on_row.
Qed.

Lemma stability_handAt (a b a' b' : R) :
  fst (calculateHandStability (Some {| left := handAt a'; right := handAt b' |})
         (handAt a) (handAt b))
  = Rmax 0 (1 - (Rabs (a - a') + Rabs (b - b')) / 2 * 10).
Proof.
  cbn [calculateHandStability fst left right].
  rewrite !movement_handAt. reflexivity.
Qed.

(** The classification of two sample hands. *)
Lemma detect_handAt (prev : option PreviousHands) (a b : R) :
  detectBasicGesture prev (Some [handAt a; handAt b])
  = Normal
      (let s := fst (calculateHandStability prev (handAt a) (handAt b)) in
       let sc := gestureScore (Rabs (a - b)) (Rabs (a - b)) s in
       {| detected := fst sc;
          confidence := snd sc;
          metrics := Some {| wristDistance := Rabs (a - b);
                             centerDistance := Rabs (a - b);
                             stability := s |};
          reason := if fst sc then "Hands positioned for gesture"%string
                    else "Hands too far apart or unstable"%string |},
       Some {| left := handAt a; right := handAt b |}).
Proof.
  rewrite !handAt_cons, ClassifierLemmas.detectBasicGesture_two_hands.
  rewrite <- !handAt_cons, !center_handAt, !distance_on_row. reflexivity.
Qed.

Lemma Rabs_minus_eq (a b d : R) : 0 <= d -> (a - b = d \/ b - a = d) ->
  Rabs (a - b) = d.
Proof.
  intros Hd H. unfold Rabs. destruct (Rcase_abs (a - b)); lra.
Qed.

Lemma gestureScore_eq (wd cd s c : R) :
  wd < 0.25 -> cd < 0.20 -> 0.7 < s ->
  Rmax 0 (1 - wd / 0.25) * 0.7 + s * 0.3 = c -> c <= 1 ->
  gestureScore wd cd s = (true, c).
Proof.
  intros Hwd Hcd Hs Hc Hc1. unfold gestureScore.
  rewrite (proj2 (Rltb_true wd 0.25) Hwd), (proj2 (Rltb_true cd 0.20) Hcd),
    (proj2 (Rltb_true 0.7 s) Hs).
  cbn [andb]. rewrite Hc. f_equal. apply Rmin_left. exact Hc1.
Qed.

(** Two motionless hands 0.02 apart score 0.944. *)
Lemma score_close_and_still : gestureScore 0.02 0.02 1 = (true, 0.944).
Proof.
  apply gestureScore_eq; try lra.
  unfold Rmax. destruct (Rle_dec 0 (1 - 0.02 / 0.25)); lra.
Qed.

(** The stored observation of [closeHands]. *)
Lemma closeHands_classified :
  detectBasicGesture (Some {| left := handAt 0.49; right := handAt 0.51 |})
    (Some closeHands)
  = Normal
      ({| detected := true;
          confidence := 0.944;
          metrics := Some {| wristDistance := 0.02; centerDistance := 0.02;
                             stability := 1 |};
          reason := "Hands positioned for gesture"%string |},
       Some {| left := handAt 0.49; right := handAt 0.51 |}).
Proof.
  unfold closeHands. rewrite detect_handAt, stability_handAt.
  rewrite (Rabs_minus_eq 0.49 0.51 0.02), (Rabs_minus_eq 0.49 0.49 0),
    (Rabs_minus_eq 0.51 0.51 0) by lra.
  replace (Rmax 0 (1 - (0 + 0) / 2 * 10)) with 1
    by (unfold Rmax; destruct (Rle_dec 0 (1 - (0 + 0) / 2 * 10)); lra).
  cbv zeta. rewrite score_close_and_still. reflexivity.
Qed.

End SampleFacts.

(** ** Claims about the classifier *)

Module ClassifierProofs.
Import Tracker ClassifierLemmas.

(** C2: for every list of hands whose length is not 2 (no hand, one hand,
    or more than two), [detectBasicGesture] returns normally, without
    throwing, the one record [detected = false, confidence = 0] of its first
    branch, and leaves the stored previous hands untouched. *)
Theorem wrong_hand_count_not_detected (prev : option PreviousHands)
    (hands : list Hand) :
  length hands <> 2%nat ->
  detectBasicGesture prev (Some hands)
  = Normal
      ({| detected := false; confidence := 0; metrics := None;
          reason := "Need exactly 2 hands"%string |},
       prev).
Proof.
  intros Hlen.
  destruct hands as [|l [|r [|x xs]]]; try reflexivity.
  exfalso; apply Hlen; reflexivity.
Qed.

Lemma wrong_hand_count_witness :
  detectBasicGesture None (Some [Sample.handAt 0.5])
  = Normal
      ({| detected := false; confidence := 0; metrics := None;
          reason := "Need exactly 2 hands"%string |},
       None).
Proof.
  apply (wrong_hand_count_not_detected None [Sample.handAt 0.5]).
  simpl. lia.
Defined.

(** C4: a classification with [detected = true] was made on two hands that
    both have a wrist, and its confidence is
    [max(0, 1 - wristDistance/0.25) * 0.7 + stability * 0.3] clamped into
    [[0,1]], where [wristDistance] is the distance between the two wrists and
    [stability] the score of [calculateHandStability] on these hands and the
    stored ones; these are also the measurements it reports.  A
    classification with [detected = false] has confidence 0. *)
Theorem confidence_formula (prev prev' : option PreviousHands)
    (hands : option (list Hand)) (res : GestureResult) :
  detectBasicGesture prev hands = Normal (res, prev') ->
  (detected res = true ->
   exists w1 l w2 r,
     hands = Some [w1 :: l; w2 :: r]
     /\ metrics res
        = Some {| wristDistance := calculateDistance w1 w2;
                  centerDistance :=
                    calculateDistance (calculateHandCenter (w1 :: l))
                      (calculateHandCenter (w2 :: r));
                  stability :=
                    fst (calculateHandStability prev (w1 :: l) (w2 :: r)) |}
     /\ confidence res
        = clamp (Rmax 0 (1 - calculateDistance w1 w2 / 0.25) * 0.7
                 + fst (calculateHandStability prev (w1 :: l) (w2 :: r)) * 0.3)
            0 1)
  /\ (detected res = false -> confidence res = 0).
Proof.
  intros H. destruct (detectBasicGesture_measured _ _ _ _ H)
    as [(Hd & Hc & _) | (w1 & l & w2 & r & Hh & Hd & Hc & Hm)].
  - split; [congruence | intros _; exact Hc].
  - split; intros Hdet.
    + exists w1, l, w2, r. split; [exact Hh|]. split; [exact Hm|].
      rewrite Hdet in Hd. symmetry in Hd.
      rewrite Hc, gestureScore_when_detected by exact Hd.
      apply gestureScore_detected in Hd. destruct Hd as (_ & _ & Hs).
      pose proof (calculateHandStability_range prev (w1 :: l) (w2 :: r)).
      split_real_cases; lra.
    + rewrite Hc. apply gestureScore_undetected. congruence.
Qed.

(** C10: [detected = true] implies a confidence strictly above 0.21. *)
Theorem detected_confidence_above_021 (prev prev' : option PreviousHands)
    (hands : option (list Hand)) (res : GestureResult) :
  detectBasicGesture prev hands = Normal (res, prev') ->
  detected res = true ->
  0.21 < confidence res.
Proof.
  intros H Hdet. destruct (detectBasicGesture_scored _ _ _ _ H)
    as [(Hd & _) | (m & Hm & Hd & Hc & Hwd & Hs)]; [congruence|].
  rewrite Hdet in Hd. symmetry in Hd.
  rewrite Hc, gestureScore_when_detected by exact Hd.
  apply gestureScore_detected in Hd. destruct Hd as (? & ? & ?).
  split_real_cases; lra.
Qed.


Lemma confidence_formula_witness :
  exists res prev',
    detectBasicGesture (Some Sample.storedClose) (Some Sample.closeHands)
    = Normal (res, prev')
    /\ detected res = true
    /\ exists w1 l w2 r,
         Some Sample.closeHands = Some [w1 :: l; w2 :: r]
         /\ metrics res
            = Some {| wristDistance := calculateDistance w1 w2;
                      centerDistance :=
                        calculateDistance (calculateHandCenter (w1 :: l))
                          (calculateHandCenter (w2 :: r));
                      stability :=
                        fst (calculateHandStability (Some Sample.storedClose)
                               (w1 :: l) (w2 :: r)) |}
         /\ confidence res
            = clamp (Rmax 0 (1 - calculateDistance w1 w2 / 0.25) * 0.7
                     + fst (calculateHandStability (Some Sample.storedClose)
                              (w1 :: l) (w2 :: r)) * 0.3) 0 1.
Proof.
  eexists. eexists. split; [exact SampleFacts.closeHands_classified|].
  split; [reflexivity|].
  exact (proj1 (confidence_formula _ _ _ _ SampleFacts.closeHands_classified)
           eq_refl).
Defined.

Lemma detected_confidence_above_021_witness :
  exists res prev',
    detectBasicGesture (Some Sample.storedClose) (Some Sample.closeHands)
    = Normal (res, prev')
    /\ detected res = true
    /\ 0.21 < confidence res.
Proof.
  eexists. eexists. split; [exact SampleFacts.closeHands_classified|].
  split; [reflexivity|].
  exact (detected_confidence_above_021 _ _ _ _
           SampleFacts.closeHands_classified eq_refl).
Defined.


(** C3 (amended): on a two-hand frame with a stored previous observation,
    the stability metric is
    [clamp(1 - 10 * (leftMovement + rightMovement)/2, 0, 1)], the clamp of the
    mean of the two hands' average displacements; it is the mean of the two
    per-slot stillness scores whenever neither of these is clamped, that is
    when both average displacements are at most 0.1. *)
Theorem stability_clamps_mean_movement (prev : PreviousHands)
    (prev' : option PreviousHands) (l r : Hand) (res : GestureResult) :
  detectBasicGesture (Some prev) (Some [l; r]) = Normal (res, prev') ->
  exists m,
    metrics res = Some m
    /\ stability m
       = clamp (1 - 10 * ((calculateHandMovement l (left prev)
                           + calculateHandMovement r (right prev)) / 2)) 0 1
    /\ (calculateHandMovement l (left prev) <= 0.1 ->
        calculateHandMovement r (right prev) <= 0.1 ->
        stability m = Spec.stability l r (left prev) (right prev)).
Proof.
  intros H.
  destruct l as [|w1 l]; [discriminate|].
  destruct r as [|w2 r]; [discriminate|].
  rewrite detectBasicGesture_two_hands in H. injection H as <- <-.
  eexists. split; [reflexivity|].
  cbn [stability calculateHandStability fst].
  unfold Spec.stability, Spec.slotStillness.
  pose proof (calculateHandMovement_nonneg (w1 :: l) (left prev)).
  pose proof (calculateHandMovement_nonneg (w2 :: r) (right prev)).
  split; [|intros ? ?]; split_real_cases; lra.
Qed.

Lemma stability_clamps_mean_movement_witness :
  exists res prev',
    detectBasicGesture (Some Sample.storedClose)
      (Some [Sample.handAt 0.49; Sample.handAt 0.51])
    = Normal (res, prev')
    /\ exists m,
         metrics res = Some m
         /\ stability m
            = clamp (1 - 10 * ((calculateHandMovement (Sample.handAt 0.49)
                                  (left Sample.storedClose)
                                + calculateHandMovement (Sample.handAt 0.51)
                                    (right Sample.storedClose)) / 2)) 0 1
         /\ (calculateHandMovement (Sample.handAt 0.49)
               (left Sample.storedClose) <= 0.1 ->
             calculateHandMovement (Sample.handAt 0.51)
               (right Sample.storedClose) <= 0.1 ->
             stability m
             = Spec.stability (Sample.handAt 0.49) (Sample.handAt 0.51)
                 (left Sample.storedClose) (right Sample.storedClose)).
Proof.
  eexists. eexists. split; [exact SampleFacts.closeHands_classified|].
  exact (stability_clamps_mean_movement _ _ _ _ _
           SampleFacts.closeHands_classified).
Defined.

(** C3 as stated fails: the left hand rests, the right hand moves by 0.2.
    The slots' stillness scores are 1 and 0, of mean 0.5; the classifier's
    stability is 0. *)
Lemma stability_is_not_mean_of_slot_stillness :
  classifiedStability
    (detectBasicGesture
       (Some {| left := Sample.handAt 0.4; right := Sample.handAt 0.6 |})
       (Some [Sample.handAt 0.4; Sample.handAt 0.8]))
  = Some 0
  /\ Spec.stability (Sample.handAt 0.4) (Sample.handAt 0.8)
       (Sample.handAt 0.4) (Sample.handAt 0.6)
     = 0.5.
Proof.
  split.
  - rewrite SampleFacts.detect_handAt, SampleFacts.stability_handAt.
    cbn [classifiedStability metrics option_map stability]. f_equal.
    rewrite (SampleFacts.Rabs_minus_eq 0.4 0.4 0),
      (SampleFacts.Rabs_minus_eq 0.8 0.6 0.2) by lra.
    split_real_cases; lra.
  - unfold Spec.stability, Spec.slotStillness.
    rewrite !SampleFacts.movement_handAt.
    rewrite (SampleFacts.Rabs_minus_eq 0.4 0.4 0),
      (SampleFacts.Rabs_minus_eq 0.8 0.6 0.2) by lra.
    split_real_cases; lra.
Qed.

End ClassifierProofs.

(** ** The trigger policy *)

Module TriggerLemmas.
Import Tracker ClassifierLemmas.

Section WithRandom.

Variable random : nat -> R.

(** A frame without exactly two hands resets the displayed gesture state and
    touches nothing else. *)
Lemma onResults_not_two_hands (f : Frame) (t : State) :
  length (multiHandLandmarks f) <> 2%nat ->
  onResults random f t
  = ({| canvasWidth := canvasWidth t; canvasHeight := canvasHeight t;
        currentHands := multiHandLandmarks f;
        gestureState :=
          {| stateDetected := false; stateConfidence := 0;
             stateMetrics := None; lastUpdate := dateNow f;
             lastTrigger := None |};
        previousHands := previousHands t;
        particleSystem := particleSystem t |},
     []).
Proof.
  intros Hlen. unfold onResults, processGestures.
  cbn [currentHands previousHands].
  destruct (Nat.eqb_spec (length (multiHandLandmarks f)) 2); [contradiction|].
  reflexivity.
Qed.

Lemma onResults_two_hands_state (f : Frame) (t : State)
    (w1 w2 : Point3D) (l r : Hand) :
  multiHandLandmarks f = [w1 :: l; w2 :: r] ->
  let out := fst (onResults random f t) in
  previousHands out = Some {| left := w1 :: l; right := w2 :: r |}
  /\ storedStability out
     = Some (fst (calculateHandStability (previousHands t) (w1 :: l) (w2 :: r)))
  /\ lastTrigger (gestureState out)
     = if qualifies t w1 w2 l r then Some (dateNow f) else None.
Proof.
  intros Hh. unfold onResults, processGestures, qualifies.
  cbn [currentHands previousHands]. rewrite Hh. cbn [length Nat.eqb].
  rewrite detectBasicGesture_two_hands. cbn [bind detected confidence metrics].
  match goal with |- context [if ?b then _ else _] => destruct b end.
  - unfold cooldownElapsed, setGesture. cbn [gestureState lastTrigger].
    unfold triggerTigerConstellation. cbn [particleSystem currentHands].
    destruct (particleSystem t); cbn; repeat split; reflexivity.
  - cbn. repeat split; reflexivity.
Qed.

Lemma onResults_two_hands_log (f : Frame) (t : State)
    (w1 w2 : Point3D) (l r : Hand) (ps : ParticleSystem.State) :
  multiHandLandmarks f = [w1 :: l; w2 :: r] ->
  particleSystem t = Some ps ->
  (exists ps', particleSystem (fst (onResults random f t)) = Some ps')
  /\ (qualifies t w1 w2 l r = true ->
      exists e, snd (onResults random f t) = [e])
  /\ (qualifies t w1 w2 l r = false -> snd (onResults random f t) = []).
Proof.
  intros Hh Hps. unfold onResults, processGestures, qualifies.
  cbn [currentHands previousHands]. rewrite Hh. cbn [length Nat.eqb].
  rewrite detectBasicGesture_two_hands. cbn [bind detected confidence metrics].
  match goal with |- context [if ?b then _ else _] => destruct b end.
  - unfold cooldownElapsed, setGesture. cbn [gestureState lastTrigger].
    unfold triggerTigerConstellation. cbn [particleSystem currentHands].
    rewrite Hps. cbn. repeat split; try discriminate; eauto.
  - cbn. rewrite Hps. repeat split; try discriminate; eauto.
Qed.

End WithRandom.

End TriggerLemmas.

Module TriggerProofs.
Import Tracker ClassifierLemmas TriggerLemmas Sample.

Lemma run_cons_fst (random : nat -> R) (f : Frame) (rest : list Frame)
    (t : State) :
  fst (run random (f :: rest) t)
  = fst (run random rest (fst (onResults random f t))).
Proof.
  cbn [run]. destruct (onResults random f t) as [t1 log1]. cbn [fst].
  destruct (run random rest t1) as [t2 log2]. reflexivity.
Qed.

Lemma spawnFrames_cons (random : nat -> R) (f : Frame) (rest : list Frame)
    (t : State) :
  spawnFrames random (f :: rest) t
  = match snd (onResults random f t) with
    | [] => spawnFrames random rest (fst (onResults random f t))
    | _ :: _ => dateNow f :: spawnFrames random rest (fst (onResults random f t))
    end.
Proof.
  cbn [spawnFrames]. destruct (onResults random f t) as [t1 log1].
  reflexivity.
Qed.

Lemma qualifies_closeHands (t : State) :
  previousHands t = Some storedClose ->
  qualifies t (mkPoint 0.49 0.5 0) (mkPoint 0.51 0.5 0)
    (repeat (mkPoint 0.49 0.5 0) 20) (repeat (mkPoint 0.51 0.5 0) 20)
  = true.
Proof.
  intros Hp. unfold qualifies. rewrite Hp. unfold storedClose.
  rewrite <- !SampleFacts.handAt_cons.
  rewrite SampleFacts.stability_handAt, !SampleFacts.center_handAt,
    !SampleFacts.distance_on_row.
  rewrite (SampleFacts.Rabs_minus_eq 0.49 0.51 0.02),
    (SampleFacts.Rabs_minus_eq 0.49 0.49 0),
    (SampleFacts.Rabs_minus_eq 0.51 0.51 0) by lra.
  replace (Rmax 0 (1 - (0 + 0) / 2 * 10)) with 1
    by (unfold Rmax; destruct (Rle_dec 0 (1 - (0 + 0) / 2 * 10)); lra).
  cbv zeta. rewrite SampleFacts.score_close_and_still.
  cbn [fst snd andb]. apply Rltb_true. lra.
Qed.

Lemma first_frame_does_not_qualify (t : State) (w1 w2 : Point3D) (l r : Hand) :
  previousHands t = None -> qualifies t w1 w2 l r = false.
Proof.
  intros Hp. unfold qualifies, gestureScore. rewrite Hp.
  cbn [calculateHandStability fst].
  replace (Rltb 0.7 0.5) with false by (symmetry; apply Rltb_false; lra).
  rewrite andb_false_r. reflexivity.
Qed.

(** Once [closeHands] is stored, every further frame showing it fires a
    spawn, whatever the time since the last one. *)
Lemma every_close_frame_spawns (random : nat -> R) (frames : list Frame) :
  Forall (fun f => multiHandLandmarks f = closeHands) frames ->
  forall (t : State) (ps : ParticleSystem.State),
    previousHands t = Some storedClose ->
    particleSystem t = Some ps ->
    spawnFrames random frames t = map dateNow frames.
Proof.
  induction 1 as [|f frames Hf _ IH]; intros t ps Hp Hps; [reflexivity|].
  unfold closeHands in Hf. rewrite !SampleFacts.handAt_cons in Hf.
  destruct (onResults_two_hands_log random f t _ _ _ _ ps Hf Hps)
    as ((ps' & Hps') & Hlog & _).
  destruct (onResults_two_hands_state random f t _ _ _ _ Hf) as (Hprev & _).
  destruct (Hlog (qualifies_closeHands t Hp)) as (e & He).
  rewrite spawnFrames_cons, He. cbn [map]. f_equal.
  apply (IH _ ps'); [|exact Hps'].
  rewrite Hprev. unfold storedClose. rewrite !SampleFacts.handAt_cons.
  reflexivity.
Qed.

(** C1, at a failing input: three consecutive frames, 33 ms apart, show two
    motionless hands 0.02 apart.  The first stores the hands; the second
    fires a spawn at 33 ms and records it as the last trigger; the third
    fires again at 66 ms, inside the 3000 ms window. *)
Theorem cooldown_is_not_enforced :
  spawnFrames half
    [frameAt 0 closeHands; frameAt 33 closeHands; frameAt 66 closeHands]
    freshTracker
  = [33%Z; 66%Z]
  /\ lastTrigger
       (gestureState
          (fst (run half [frameAt 0 closeHands; frameAt 33 closeHands]
                  freshTracker)))
     = Some 33%Z.
Proof.
  assert (Hf : multiHandLandmarks (frameAt 0 closeHands)
               = [mkPoint 0.49 0.5 0 :: repeat (mkPoint 0.49 0.5 0) 20;
                  mkPoint 0.51 0.5 0 :: repeat (mkPoint 0.51 0.5 0) 20])
    by reflexivity.
  destruct (onResults_two_hands_log half _ freshTracker _ _ _ _ _ Hf eq_refl)
    as ((ps' & Hps') & _ & Hlog).
  destruct (onResults_two_hands_state half _ freshTracker _ _ _ _ Hf)
    as (Hprev & _).
  specialize (Hlog (first_frame_does_not_qualify freshTracker _ _ _ _ eq_refl)).
  split.
  - rewrite spawnFrames_cons, Hlog.
    apply (every_close_frame_spawns half
             [frameAt 33 closeHands; frameAt 66 closeHands]) with (ps := ps');
      [repeat constructor | exact Hprev | exact Hps'].
  - rewrite !run_cons_fst. cbn [run fst].
    assert (Hf' : multiHandLandmarks (frameAt 33 closeHands)
               = [mkPoint 0.49 0.5 0 :: repeat (mkPoint 0.49 0.5 0) 20;
                  mkPoint 0.51 0.5 0 :: repeat (mkPoint 0.51 0.5 0) 20])
      by reflexivity.
    destruct (onResults_two_hands_state half _
                (fst (onResults half (frameAt 0 closeHands) freshTracker))
                _ _ _ _ Hf') as (_ & _ & Hlt).
    rewrite Hlt, (qualifies_closeHands _ Hprev). reflexivity.
Qed.

Section WithRandom.

Variable random : nat -> R.

(** C6 (amended): a frame with fewer than two hands leaves the stored
    previous hands as they were, and the next two-hand frame measures its
    stability against them: [max(0, 1 - 10 * mean movement)] since the hands
    stored before the drop, and the neutral 0.5 only when nothing had been
    stored. *)
Theorem hand_drop_keeps_stored_hands (f1 f2 : Frame) (t : State)
    (w1 w2 : Point3D) (l r : Hand) :
  (length (multiHandLandmarks f1) < 2)%nat ->
  multiHandLandmarks f2 = [w1 :: l; w2 :: r] ->
  previousHands (fst (onResults random f1 t)) = previousHands t
  /\ storedStability (fst (run random [f1; f2] t))
     = Some
         match previousHands t with
         | None => 0.5
         | Some prev =>
             Rmax 0
               (1 - (calculateHandMovement (w1 :: l) (left prev)
                     + calculateHandMovement (w2 :: r) (right prev)) / 2 * 10)
         end.
Proof.
  intros Hlen Hh.
  assert (Hne : length (multiHandLandmarks f1) <> 2%nat) by lia.
  pose proof (onResults_not_two_hands random f1 t Hne) as E1.
  split; [rewrite E1; reflexivity|].
  rewrite !run_cons_fst. cbn [run fst].
  destruct (onResults_two_hands_state random f2
              (fst (onResults random f1 t)) _ _ _ _ Hh) as (_ & Hs & _).
  rewrite Hs, E1. cbn [fst previousHands].
  destruct (previousHands t); reflexivity.
Qed.

End WithRandom.

Lemma hand_drop_keeps_stored_hands_witness :
  previousHands
    (fst (onResults half (frameAt 33 [handAt 0.49])
            (fst (onResults half (frameAt 0 closeHands) freshTracker))))
  = previousHands (fst (onResults half (frameAt 0 closeHands) freshTracker))
  /\ storedStability
       (fst (run half [frameAt 33 [handAt 0.49]; frameAt 66 closeHands]
               (fst (onResults half (frameAt 0 closeHands) freshTracker))))
     = Some
         match
           previousHands
             (fst (onResults half (frameAt 0 closeHands) freshTracker))
         with
         | None => 0.5
         | Some prev =>
             Rmax 0
               (1 - (calculateHandMovement
                       (mkPoint 0.49 0.5 0 :: repeat (mkPoint 0.49 0.5 0) 20)
                       (left prev)
                     + calculateHandMovement
                         (mkPoint 0.51 0.5 0 :: repeat (mkPoint 0.51 0.5 0) 20)
                         (right prev)) / 2 * 10)
         end.
Proof.
  apply (hand_drop_keeps_stored_hands half (frameAt 33 [handAt 0.49])
           (frameAt 66 closeHands)).
  - simpl. lia.
  - reflexivity.
Defined.

(** C6 as stated fails: two hands are seen and stored, one hand is lost for
    a frame, and the same two hands return.  The returning frame is not
    scored as a first frame (0.5) but against the hands stored before the
    drop: its stability is 1. *)
Lemma stale_history_after_hand_drop :
  storedStability
    (fst (run half
            [frameAt 0 closeHands; frameAt 33 [handAt 0.49];
             frameAt 66 closeHands]
            freshTracker))
  = Some 1
  /\ storedStability (fst (run half [frameAt 0 closeHands] freshTracker))
     = Some 0.5.
Proof.
  assert (Hf : forall n, multiHandLandmarks (frameAt n closeHands)
               = [mkPoint 0.49 0.5 0 :: repeat (mkPoint 0.49 0.5 0) 20;
                  mkPoint 0.51 0.5 0 :: repeat (mkPoint 0.51 0.5 0) 20])
    by reflexivity.
  destruct (onResults_two_hands_state half _ freshTracker _ _ _ _ (Hf 0%Z))
    as (Hprev & Hs0 & _).
  split.
  - rewrite !run_cons_fst. cbn [run fst].
    match goal with
    | |- storedStability (fst (onResults _ _ ?t2)) = _ =>
        destruct (onResults_two_hands_state half _ t2 _ _ _ _ (Hf 66%Z))
          as (_ & Hs & _)
    end.
    rewrite Hs.
    rewrite (onResults_not_two_hands half (frameAt 33 [handAt 0.49]))
      by (simpl; lia).
    cbn [fst previousHands]. rewrite Hprev.
    rewrite <- !SampleFacts.handAt_cons, SampleFacts.stability_handAt.
    rewrite (SampleFacts.Rabs_minus_eq 0.49 0.49 0),
      (SampleFacts.Rabs_minus_eq 0.51 0.51 0) by lra.
    f_equal. unfold Rmax. destruct (Rle_dec 0 (1 - (0 + 0) / 2 * 10)); lra.
  - rewrite run_cons_fst. cbn [run fst]. exact Hs0.
Qed.

End TriggerProofs.

(** ** The particle system *)

Module ParticleLemmas.
Import ParticleSystem.

Lemma phaseOf_spawning (a m : R) : phaseOf a m = spawning <-> a < 500.
Proof.
  unfold phaseOf, Rltb.
  destruct (Rlt_dec a 500); [tauto|].
  destruct (Rlt_dec a (m - 1000)); split; intros; try discriminate; lra.
Qed.

Lemma phaseOf_floating (a m : R) :
  phaseOf a m = floating <-> 500 <= a < m - 1000.
Proof.
  unfold phaseOf, Rltb.
  destruct (Rlt_dec a 500); [split; intros; try discriminate; lra|].
  destruct (Rlt_dec a (m - 1000)); split; intros; try discriminate;
    try reflexivity; lra.
Qed.

Lemma phaseOf_dying (a m : R) :
  1500 <= m -> phaseOf a m = dying <-> m - 1000 <= a.
Proof.
  intros Hm. unfold phaseOf, Rltb.
  destruct (Rlt_dec a 500); [split; intros; try discriminate; lra|].
  destruct (Rlt_dec a (m - 1000)); split; intros; try discriminate;
    try reflexivity; lra.
Qed.

(** The phase never moves back when the age grows. *)
Lemma phaseOf_monotone (a b m : R) :
  a <= b -> (phaseRank (phaseOf a m) <= phaseRank (phaseOf b m))%nat.
Proof.
  intros Hab. unfold phaseOf, Rltb.
  destruct (Rlt_dec a 500), (Rlt_dec b 500), (Rlt_dec a (m - 1000)),
    (Rlt_dec b (m - 1000)); cbn; try lia; lra.
Qed.

Lemma updateParticle_age (dt : R) (p : Particle) :
  age (updateParticle dt p) = age p + dt.
Proof. reflexivity. Qed.

Lemma updateParticle_maxAge (dt : R) (p : Particle) :
  maxAge (updateParticle dt p) = maxAge p.
Proof. reflexivity. Qed.

Lemma updateParticle_phase (dt : R) (p : Particle) :
  phase (updateParticle dt p) = phaseOf (age p + dt) (maxAge p).
Proof. reflexivity. Qed.

Lemma updateParticle_alpha (dt : R) (p : Particle) :
  alpha (updateParticle dt p)
  = alphaOf (phaseOf (age p + dt) (maxAge p)) (age p + dt) (maxAge p).
Proof. reflexivity. Qed.

Lemma updateParticles_In (dt : R) (ps : list Particle) (q : Particle) :
  In q (updateParticles dt ps)
  <-> exists p, In p ps /\ q = updateParticle dt p /\ age q < maxAge q.
Proof.
  unfold updateParticles. rewrite filter_In, in_map_iff.
  unfold alive. rewrite Rltb_true. split.
  - intros ((p & Hq & Hp) & Ha). exists p. auto.
  - intros (p & Hp & Hq & Ha). split; [exists p|]; auto.
Qed.

Lemma animate_keeps (P : Particle -> Prop) (time : R) (handle : positive)
    (s : State) :
  (forall dt p, P p -> P (updateParticle dt p)) ->
  Forall P (particles s) ->
  Forall P (particles (animate time handle s)).
Proof.
  intros Hstep Hall. unfold animate.
  destruct (isActive s); cbn [negb]; [|exact Hall].
  assert (Hupd : Forall P (updateParticles (time - lastTime s) (particles s))).
  { rewrite Forall_forall in *. intros q Hq.
    apply updateParticles_In in Hq. destruct Hq as (p & Hp & -> & _).
    auto. }
  destruct (updateParticles (time - lastTime s) (particles s));
    cbn [particles]; [constructor | exact Hupd].
Qed.

Lemma animateAll_keeps (frames : list (R * positive)) :
  forall s : State,
    Forall (fun p => 5000 <= maxAge p < 8000
                     /\ phase p = phaseOf (age p) (maxAge p)) (particles s) ->
    Forall (fun p => 5000 <= maxAge p < 8000
                     /\ phase p = phaseOf (age p) (maxAge p))
      (particles (animateAll frames s)).
Proof.
  induction frames as [|[time handle] rest IH]; intros s Hs; [exact Hs|].
  cbn [animateAll]. apply IH. apply animate_keeps; [|exact Hs].
  intros dt p (Hm & _). split; [exact Hm | reflexivity].
Qed.

Section WithRandom.

Variable random : nat -> R.
Hypothesis random_range : forall n, 0 <= random n < 1.

Lemma pushParticles_length (cx cy sc : R) (tpl : list Anchor) :
  forall (i d : nat) (acc : list Particle),
    length (fst (pushParticles random cx cy sc tpl i d acc))
    = (length acc + length tpl)%nat.
Proof.
  induction tpl as [|pt tpl IH]; intros i d acc; cbn [pushParticles].
  - cbn. lia.
  - rewrite IH, length_app. cbn. lia.
Qed.

Lemma pushParticles_keeps (cx cy sc : R) (tpl : list Anchor) :
  forall (i d : nat) (acc : list Particle) (k : nat) (p : Particle),
    nth_error acc k = Some p ->
    nth_error (fst (pushParticles random cx cy sc tpl i d acc)) k = Some p.
Proof.
  induction tpl as [|pt tpl IH]; intros i d acc k p Hk; cbn [pushParticles].
  - exact Hk.
  - apply IH. rewrite nth_error_app1; [exact Hk|].
    apply nth_error_Some. congruence.
Qed.

(** The [k]-th anchor becomes the [k]-th pushed particle. *)
Lemma pushParticles_nth (cx cy sc : R) (tpl : list Anchor) :
  forall (i d : nat) (acc : list Particle) (k : nat) (pt : Anchor),
    nth_error tpl k = Some pt ->
    nth_error (fst (pushParticles random cx cy sc tpl i d acc))
      (length acc + k)
    = Some (makeParticle random cx cy sc pt (i + k) (d + 9 * k)).
Proof.
  induction tpl as [|a tpl IH]; intros i d acc k pt Hk;
    [destruct k; discriminate|].
  cbn [pushParticles]. destruct k as [|k].
  - cbn in Hk. injection Hk as ->.
    apply pushParticles_keeps.
    rewrite nth_error_app2 by lia.
    replace (length acc + 0 - length acc)%nat with 0%nat by lia.
    replace (i + 0)%nat with i by lia.
    replace (d + 9 * 0)%nat with d by lia. reflexivity.
  - cbn in Hk.
    specialize (IH (S i) (d + 9)%nat
                  (acc ++ [makeParticle random cx cy sc a i d]) k pt Hk).
    rewrite length_app in IH. cbn [length] in IH.
    replace (length acc + 1 + k)%nat with (length acc + S k)%nat in IH by lia.
    replace (S i + k)%nat with (i + S k)%nat in IH by lia.
    replace (d + 9 + 9 * k)%nat with (d + 9 * S k)%nat in IH by lia.
    exact IH.
Qed.

Lemma pushParticles_Forall (P : Particle -> Prop) (cx cy sc : R)
    (tpl : list Anchor) :
  (forall pt i d, P (makeParticle random cx cy sc pt i d)) ->
  forall (i d : nat) (acc : list Particle),
    Forall P acc ->
    Forall P (fst (pushParticles random cx cy sc tpl i d acc)).
Proof.
  intros HP. induction tpl as [|a tpl IH]; intros i d acc Hacc;
    cbn [pushParticles]; [exact Hacc|].
  apply IH. apply Forall_app. split; [exact Hacc|].
  constructor; [apply HP | constructor].
Qed.

Lemma spawn_particles (cx cy scale now : R) (handle : positive) (s : State) :
  particles (spawnTigerConstellation random cx cy scale now handle s)
  = fst (pushParticles random
           (orElse cx (canvasWidth s / 2)) (orElse cy (canvasHeight s / 2))
           (scale * Rmin (canvasWidth s) (canvasHeight s) * 0.3)
           tigerTemplate 0 (draws s) []).
Proof.
  unfold spawnTigerConstellation.
  destruct (pushParticles random _ _ _ tigerTemplate 0 (draws s) [])
    as [ps d].
  unfold startAnimation. cbn [animationId].
  destruct (animationId s); reflexivity.
Qed.

(** A spawned particle is new, invisible, and lives five to eight
    seconds. *)
Lemma spawned_particles_fresh (cx cy scale now : R) (handle : positive)
    (s : State) :
  Forall (fun p => age p = 0 /\ alpha p = 0 /\ phase p = spawning
                   /\ 5000 <= maxAge p < 8000)
    (particles (spawnTigerConstellation random cx cy scale now handle s)).
Proof.
  rewrite spawn_particles. apply pushParticles_Forall; [|constructor].
  intros pt i d. cbn [makeParticle age alpha phase maxAge].
  pose proof (random_range (d + 8)). repeat split; lra.
Qed.

(** From a spawn on, through any number of frame callbacks, every live
    particle keeps its lifetime of five to eight seconds and a phase that
    agrees with its age. *)
Lemma live_particles_consistent (frames : list (R * positive))
    (cx cy scale now : R) (handle : positive) (s : State) :
  Forall (fun p => 5000 <= maxAge p < 8000
                   /\ phase p = phaseOf (age p) (maxAge p))
    (particles
       (animateAll frames
          (spawnTigerConstellation random cx cy scale now handle s))).
Proof.
  apply animateAll_keeps.
  eapply Forall_impl; [|apply spawned_particles_fresh].
  cbv beta. intros p (Ha & _ & Hph & Hm). split; [exact Hm|].
  rewrite Ha, Hph. symmetry. apply phaseOf_spawning. lra.
Qed.

End WithRandom.

End ParticleLemmas.

Module ParticleProofs.
Import ParticleSystem ParticleLemmas.

(** C7: after an update tick of particles whose lifetime is at least
    5000 ms, every particle kept is [spawning] exactly when its age is below
    500, [floating] exactly when [500 <= age < maxAge - 1000], and [dying]
    exactly when [age >= maxAge - 1000]; a particle is kept exactly when its
    new age is below [maxAge], so it is removed exactly once
    [age >= maxAge]; and when time does not run backwards, a particle whose
    phase agrees with its age (as at spawn and after every tick) never moves
    to an earlier phase. *)
Theorem phase_follows_age (dt : R) (ps : list Particle) :
  Forall (fun p => 5000 <= maxAge p) ps ->
  (forall q, In q (updateParticles dt ps) ->
     (phase q = spawning <-> age q < 500)
     /\ (phase q = floating <-> 500 <= age q < maxAge q - 1000)
     /\ (phase q = dying <-> maxAge q - 1000 <= age q))
  /\ (forall p, In p ps ->
        (In (updateParticle dt p) (updateParticles dt ps)
         <-> age p + dt < maxAge p)
        /\ (~ In (updateParticle dt p) (updateParticles dt ps)
            <-> maxAge p <= age p + dt))
  /\ (0 <= dt ->
      forall p, In p ps ->
        phase p = phaseOf (age p) (maxAge p) ->
        (phaseRank (phase p) <= phaseRank (phase (updateParticle dt p)))%nat
        /\ phase (updateParticle dt p)
           = phaseOf (age (updateParticle dt p)) (maxAge (updateParticle dt p))).
Proof.
  intros Hmax. rewrite Forall_forall in Hmax. split; [|split].
  - intros q Hq. apply updateParticles_In in Hq.
    destruct Hq as (p & Hp & -> & _).
    rewrite updateParticle_phase, updateParticle_age, updateParticle_maxAge.
    specialize (Hmax p Hp).
    split; [apply phaseOf_spawning|].
    split; [apply phaseOf_floating | apply phaseOf_dying; lra].
  - intros p Hp.
    assert (Hkept : In (updateParticle dt p) (updateParticles dt ps)
                    <-> age p + dt < maxAge p).
    { rewrite updateParticles_In. split.
      - intros (p' & _ & _ & Ha). exact Ha.
      - intros Ha. exists p. auto. }
    split; [exact Hkept|]. rewrite Hkept. lra.
  - intros Hdt p Hp Hcons. split; [|reflexivity].
    rewrite Hcons, updateParticle_phase. apply phaseOf_monotone. lra.
Qed.

Lemma phase_follows_age_witness :
  (forall q, In q (updateParticles 16 [Sample.particleAged 490 spawning]) ->
     (phase q = spawning <-> age q < 500)
     /\ (phase q = floating <-> 500 <= age q < maxAge q - 1000)
     /\ (phase q = dying <-> maxAge q - 1000 <= age q))
  /\ (forall p, In p [Sample.particleAged 490 spawning] ->
        (In (updateParticle 16 p)
           (updateParticles 16 [Sample.particleAged 490 spawning])
         <-> age p + 16 < maxAge p)
        /\ (~ In (updateParticle 16 p)
              (updateParticles 16 [Sample.particleAged 490 spawning])
            <-> maxAge p <= age p + 16))
  /\ (0 <= 16 ->
      forall p, In p [Sample.particleAged 490 spawning] ->
        phase p = phaseOf (age p) (maxAge p) ->
        (phaseRank (phase p) <= phaseRank (phase (updateParticle 16 p)))%nat
        /\ phase (updateParticle 16 p)
           = phaseOf (age (updateParticle 16 p))
               (maxAge (updateParticle 16 p))).
Proof.
  apply (phase_follows_age 16 [Sample.particleAged 490 spawning]).
  repeat constructor. simpl. lra.
Defined.

Section WithRandom.

Variable random : nat -> R.
Hypothesis random_range : forall n, 0 <= random n < 1.

(** C8: a spawned particle has age 0, alpha 0 and a lifetime in
    [[5000, 8000)]; after a tick of a particle with such a lifetime, alpha is
    0 at age 0, [min(1, age/500)] while [age < 500], 1 from age 500 until
    [maxAge - 1000], and [max(0, 1 - (age - (maxAge - 1000))/1000)] from
    there on, which is 0 once [age >= maxAge]. *)
Theorem alpha_profile (dt : R) (p : Particle)
    (cx cy scale now : R) (handle : positive) (s : State) :
  5000 <= maxAge p < 8000 ->
  Forall (fun q => age q = 0 /\ alpha q = 0 /\ 5000 <= maxAge q < 8000)
    (particles (spawnTigerConstellation random cx cy scale now handle s))
  /\ (age (updateParticle dt p) = 0 -> alpha (updateParticle dt p) = 0)
  /\ (age (updateParticle dt p) < 500 ->
      alpha (updateParticle dt p) = Rmin 1 (age (updateParticle dt p) / 500))
  /\ (500 <= age (updateParticle dt p) < maxAge p - 1000 ->
      alpha (updateParticle dt p) = 1)
  /\ (maxAge p - 1000 <= age (updateParticle dt p) ->
      alpha (updateParticle dt p)
      = Rmax 0 (1 - (age (updateParticle dt p) - (maxAge p - 1000)) / 1000))
  /\ (maxAge p <= age (updateParticle dt p) -> alpha (updateParticle dt p) = 0).
Proof.
  intros Hmax. split.
  { eapply Forall_impl; [|apply (spawned_particles_fresh random random_range)].
    cbv beta. intros q (? & ? & _ & ?). auto. }
  rewrite updateParticle_alpha, updateParticle_age.
  set (a := age p + dt). set (m := maxAge p) in *.
  unfold alphaOf, phaseOf, Rltb.
  destruct (Rlt_dec a 500); [|destruct (Rlt_dec a (m - 1000))];
    repeat split; intros; try lra;
    unfold Rmin, Rmax;
    repeat match goal with
           | |- context [Rle_dec ?u ?v] => destruct (Rle_dec u v)
           end; lra.
Qed.

End WithRandom.

Lemma half_in_range : forall n : nat, 0 <= Sample.half n < 1.
Proof. intros n. unfold Sample.half. lra. Qed.

Lemma alpha_profile_witness :
  Forall (fun q => age q = 0 /\ alpha q = 0 /\ 5000 <= maxAge q < 8000)
    (particles
       (spawnTigerConstellation Sample.half 320 240 1 0 1%positive
          Sample.freshParticles))
  /\ (age (updateParticle 16 (Sample.particleAged 5500 dying)) = 0 ->
      alpha (updateParticle 16 (Sample.particleAged 5500 dying)) = 0)
  /\ (age (updateParticle 16 (Sample.particleAged 5500 dying)) < 500 ->
      alpha (updateParticle 16 (Sample.particleAged 5500 dying))
      = Rmin 1 (age (updateParticle 16 (Sample.particleAged 5500 dying)) / 500))
  /\ (500 <= age (updateParticle 16 (Sample.particleAged 5500 dying))
      < maxAge (Sample.particleAged 5500 dying) - 1000 ->
      alpha (updateParticle 16 (Sample.particleAged 5500 dying)) = 1)
  /\ (maxAge (Sample.particleAged 5500 dying) - 1000
      <= age (updateParticle 16 (Sample.particleAged 5500 dying)) ->
      alpha (updateParticle 16 (Sample.particleAged 5500 dying))
      = Rmax 0
          (1 - (age (updateParticle 16 (Sample.particleAged 5500 dying))
                - (maxAge (Sample.particleAged 5500 dying) - 1000)) / 1000))
  /\ (maxAge (Sample.particleAged 5500 dying)
      <= age (updateParticle 16 (Sample.particleAged 5500 dying)) ->
      alpha (updateParticle 16 (Sample.particleAged 5500 dying)) = 0).
Proof.
  apply (alpha_profile Sample.half half_in_range 16
           (Sample.particleAged 5500 dying)).
  simpl. lra.
Defined.

(** C9: whatever particles were live, the set left by a spawn holds exactly
    one particle per template anchor and nothing else: it has the template's
    43 elements, the [i]-th of them is the particle made for the [i]-th
    anchor, and each starts with alpha 0. *)
Theorem spawn_replaces_particles (random : nat -> R)
    (cx cy scale now : R) (handle : positive) (s : State) :
  length (particles (spawnTigerConstellation random cx cy scale now handle s))
  = length tigerTemplate
  /\ length tigerTemplate = 43%nat
  /\ (forall i pt,
        nth_error tigerTemplate i = Some pt ->
        nth_error
          (particles (spawnTigerConstellation random cx cy scale now handle s))
          i
        = Some (makeParticle random
                  (orElse cx (canvasWidth s / 2))
                  (orElse cy (canvasHeight s / 2))
                  (scale * Rmin (canvasWidth s) (canvasHeight s) * 0.3)
                  pt i (draws s + 9 * i)))
  /\ Forall (fun p => alpha p = 0)
       (particles (spawnTigerConstellation random cx cy scale now handle s)).
Proof.
  rewrite spawn_particles. split; [|split; [|split]].
  - rewrite pushParticles_length. reflexivity.
  - reflexivity.
  - intros i pt Hi.
    apply (pushParticles_nth random _ _ _ tigerTemplate 0 (draws s) [] i pt Hi).
  - apply pushParticles_Forall; [|constructor]. reflexivity.
Qed.

End ParticleProofs.

(** * Further properties of the code *)

(** ** Geometry *)

Module GeometryProofs.

Lemma sum_of_squares_nonneg (a b c : R) : 0 <= a * a + b * b + c * c.
Proof. nra. Qed.

Lemma sum_of_squares_zero (a b c : R) :
  a * a + b * b + c * c = 0 -> a = 0 /\ b = 0 /\ c = 0.
Proof.
  intros H.
  pose proof (Rle_0_sqr a) as Ha. pose proof (Rle_0_sqr b) as Hb.
  pose proof (Rle_0_sqr c) as Hc. unfold Rsqr in *.
  repeat split; apply Rsqr_0_uniq; unfold Rsqr; lra.
Qed.

(** X1: [calculateDistance] is a metric on points: symmetric, zero exactly on
    equal points, and it obeys the triangle inequality. *)
Theorem calculateDistance_metric (p q r : Point3D) :
  calculateDistance p q = calculateDistance q p
  /\ (calculateDistance p q = 0 <-> p = q)
  /\ calculateDistance p r <= calculateDistance p q + calculateDistance q r.
Proof.
  split; [|split].
  - unfold calculateDistance. cbv zeta. f_equal. ring.
  - split.
    + unfold calculateDistance. cbv zeta. intros H.
      apply sqrt_eq_0 in H; [|apply sum_of_squares_nonneg].
      destruct p as [a b c], q as [a' b' c']. cbn [px py pz] in H.
      destruct (sum_of_squares_zero _ _ _ H) as (? & ? & ?).
      f_equal; lra.
    + intros ->. apply calculateDistance_same.
  - unfold calculateDistance. cbv zeta.
    set (a1 := px p - px q). set (a2 := py p - py q). set (a3 := pz p - pz q).
    set (b1 := px q - px r). set (b2 := py q - py r). set (b3 := pz q - pz r).
    replace (px p - px r) with (a1 + b1) by (unfold a1, b1; ring).
    replace (py p - py r) with (a2 + b2) by (unfold a2, b2; ring).
    replace (pz p - pz r) with (a3 + b3) by (unfold a3, b3; ring).
    set (A := a1 * a1 + a2 * a2 + a3 * a3).
    set (B := b1 * b1 + b2 * b2 + b3 * b3).
    assert (HA : 0 <= A) by apply sum_of_squares_nonneg.
    assert (HB : 0 <= B) by apply sum_of_squares_nonneg.
    pose proof (sqrt_pos A) as HsA. pose proof (sqrt_pos B) as HsB.
    assert (Hdot : a1 * b1 + a2 * b2 + a3 * b3 <= sqrt A * sqrt B).
    { rewrite <- sqrt_mult by assumption.
      destruct (Rle_dec (a1 * b1 + a2 * b2 + a3 * b3) 0) as [Hn|Hp].
      - pose proof (sqrt_pos (A * B)). lra.
      - rewrite <- (sqrt_square (a1 * b1 + a2 * b2 + a3 * b3)) by lra.
        apply sqrt_le_1_alt. unfold A, B.
        pose proof (sum_of_squares_nonneg (a1 * b2 - a2 * b1)
                      (a1 * b3 - a3 * b1) (a2 * b3 - a3 * b2)) as Hsq.
        assert (Hlagrange :
                  (a1 * a1 + a2 * a2 + a3 * a3) * (b1 * b1 + b2 * b2 + b3 * b3)
                  - (a1 * b1 + a2 * b2 + a3 * b3) * (a1 * b1 + a2 * b2 + a3 * b3)
                  = (a1 * b2 - a2 * b1) * (a1 * b2 - a2 * b1)
                    + (a1 * b3 - a3 * b1) * (a1 * b3 - a3 * b1)
                    + (a2 * b3 - a3 * b2) * (a2 * b3 - a3 * b2)) by ring.
        lra. }
    apply Rsqr_incr_0_var; [|lra].
    unfold Rsqr. rewrite sqrt_sqrt by apply sum_of_squares_nonneg.
    replace ((sqrt A + sqrt B) * (sqrt A + sqrt B))
      with (sqrt A * sqrt A + sqrt B * sqrt B + 2 * (sqrt A * sqrt B)) by ring.
    rewrite !sqrt_sqrt by assumption.
    replace ((a1 + b1) * (a1 + b1) + (a2 + b2) * (a2 + b2)
             + (a3 + b3) * (a3 + b3))
      with (A + B + 2 * (a1 * b1 + a2 * b2 + a3 * b3))
      by (unfold A, B; ring).
    lra.
Qed.

Lemma sumOver_bounds (f : Point3D -> R) (lo hi : R) (h : Hand) :
  Forall (fun p => lo <= f p <= hi) h ->
  INR (length h) * lo <= sumOver f h <= INR (length h) * hi.
Proof.
  induction 1 as [|p h Hp _ IH].
  - unfold sumOver. simpl. lra.
  - unfold sumOver in *. cbn [fold_left]. rewrite sumOver_acc.
    unfold sumOver. change (length (p :: h)) with (S (length h)).
    rewrite S_INR. lra.
Qed.

Lemma mean_bounds (v lo hi n : R) :
  0 < n -> n * lo <= v <= n * hi -> lo <= v / n <= hi.
Proof.
  intros Hn [Hl Hh]. unfold Rdiv.
  pose proof (Rinv_0_lt_compat n Hn) as Hi.
  assert (Hone : n * / n = 1) by (apply Rinv_r; lra).
  split.
  - replace lo with (n * lo * / n) by (rewrite Rmult_comm, <- Rmult_assoc,
      (Rmult_comm (/ n)), Hone; ring).
    apply Rmult_le_compat_r; lra.
  - replace hi with (n * hi * / n) by (rewrite Rmult_comm, <- Rmult_assoc,
      (Rmult_comm (/ n)), Hone; ring).
    apply Rmult_le_compat_r; lra.
Qed.

Lemma mean_in_range (f : Point3D -> R) (lo hi : R) (h : Hand) :
  h <> [] ->
  Forall (fun p => lo <= f p <= hi) h ->
  lo <= sumOver f h / INR (length h) <= hi.
Proof.
  intros Hne Hall. apply mean_bounds; [|apply sumOver_bounds; exact Hall].
  destruct h; [contradiction|]. apply lt_0_INR. simpl. lia.
Qed.

Lemma totalMovement_self (h : Hand) : totalMovement 0 h h = 0.
Proof.
  induction h as [|p h IH]; [reflexivity|].
  cbn [totalMovement]. rewrite totalMovement_acc, IH, calculateDistance_same.
  lra.
Qed.

Lemma calculateHandMovement_self (h : Hand) : calculateHandMovement h h = 0.
Proof.
  unfold calculateHandMovement. rewrite totalMovement_self. unfold Rdiv.
  apply Rmult_0_l.
Qed.

(** X2: The centre of a non-empty hand lies in the bounding box of its
    landmarks: on each axis separately, the coordinate of
    [calculateHandCenter] is between any two bounds that hold for that
    coordinate of every landmark. *)
Theorem calculateHandCenter_in_box (xlo xhi ylo yhi zlo zhi : R) (h : Hand) :
  h <> [] ->
  Forall (fun p => xlo <= px p <= xhi /\ ylo <= py p <= yhi
                   /\ zlo <= pz p <= zhi) h ->
  xlo <= px (calculateHandCenter h) <= xhi
  /\ ylo <= py (calculateHandCenter h) <= yhi
  /\ zlo <= pz (calculateHandCenter h) <= zhi.
Proof.
  intros Hne Hall. unfold calculateHandCenter. cbn [px py pz].
  split; [|split]; (apply mean_in_range; [exact Hne|]);
    (eapply Forall_impl; [|exact Hall]); cbv beta; intros ? ?; tauto.
Qed.

Lemma calculateHandCenter_in_box_witness :
  0.49 <= px (calculateHandCenter (Sample.handAt 0.49)) <= 0.49
  /\ 0.5 <= py (calculateHandCenter (Sample.handAt 0.49)) <= 0.5
  /\ 0 <= pz (calculateHandCenter (Sample.handAt 0.49)) <= 0.
Proof.
  apply (calculateHandCenter_in_box 0.49 0.49 0.5 0.5 0 0
           (Sample.handAt 0.49)).
  - discriminate.
  - unfold Sample.handAt. apply Forall_forall. intros p Hp.
    apply repeat_spec in Hp. subst p. cbn [px py pz]. lra.
Defined.

Lemma totalMovement_translated (dx dy dz : R) (h : Hand) :
  totalMovement 0
    (map (fun p => mkPoint (px p + dx) (py p + dy) (pz p + dz)) h) h
  = INR (length h) * sqrt (dx * dx + dy * dy + dz * dz).
Proof.
  induction h as [|p h IH]; [simpl; lra|].
  cbn [map totalMovement]. rewrite totalMovement_acc, IH.
  change (length (p :: h)) with (S (length h)). rewrite S_INR.
  unfold calculateDistance. cbn [px py pz].
  replace (px p + dx - px p) with dx by ring.
  replace (py p + dy - py p) with dy by ring.
  replace (pz p + dz - pz p) with dz by ring. lra.
Qed.

(** X3: When both hands are non-empty and every landmark has moved by the same
    vector since the stored frame, [calculateHandStability] returns
    [max(0, 1 - 10 * |vector|)], whatever the hands' shapes and sizes; for the
    zero vector, a repeated observation, that is 1. *)
Theorem stability_of_translated_hands (dx dy dz : R) (l r : Hand) :
  l <> [] -> r <> [] ->
  fst (Tracker.calculateHandStability
         (Some {| Tracker.left := l; Tracker.right := r |})
         (map (fun p => mkPoint (px p + dx) (py p + dy) (pz p + dz)) l)
         (map (fun p => mkPoint (px p + dx) (py p + dy) (pz p + dz)) r))
  = Rmax 0 (1 - sqrt (dx * dx + dy * dy + dz * dz) * 10)
  /\ (dx = 0 -> dy = 0 -> dz = 0 ->
      fst (Tracker.calculateHandStability
             (Some {| Tracker.left := l; Tracker.right := r |})
             (map (fun p => mkPoint (px p + dx) (py p + dy) (pz p + dz)) l)
             (map (fun p => mkPoint (px p + dx) (py p + dy) (pz p + dz)) r))
      = 1).
Proof.
  intros Hl Hr.
  assert (Hmove : forall h : Hand, h <> [] ->
            calculateHandMovement
              (map (fun p => mkPoint (px p + dx) (py p + dy) (pz p + dz)) h) h
            = sqrt (dx * dx + dy * dy + dz * dz)).
  { intros h Hh. unfold calculateHandMovement.
    rewrite totalMovement_translated, length_map. field.
    destruct h; [contradiction|]. apply not_0_INR. simpl. lia. }
  cbn [Tracker.calculateHandStability fst Tracker.left Tracker.right].
  rewrite (Hmove l Hl), (Hmove r Hr).
  replace ((sqrt (dx * dx + dy * dy + dz * dz)
            + sqrt (dx * dx + dy * dy + dz * dz)) / 2)
    with (sqrt (dx * dx + dy * dy + dz * dz)) by field.
  split; [reflexivity|]. intros -> -> ->.
  replace (0 * 0 + 0 * 0 + 0 * 0) with 0 by ring. rewrite sqrt_0.
  unfold Rmax. destruct (Rle_dec 0 (1 - 0 * 10)); lra.
Qed.

Lemma stability_of_translated_hands_witness :
  fst (Tracker.calculateHandStability
         (Some {| Tracker.left := Sample.handAt 0.49;
                  Tracker.right := Sample.handAt 0.51 |})
         (map (fun p => mkPoint (px p + 0) (py p + 0) (pz p + 0))
            (Sample.handAt 0.49))
         (map (fun p => mkPoint (px p + 0) (py p + 0) (pz p + 0))
            (Sample.handAt 0.51)))
  = 1.
Proof.
  apply (stability_of_translated_hands 0 0 0 (Sample.handAt 0.49)
           (Sample.handAt 0.51)); (discriminate || reflexivity).
Defined.

(** With stored hands, the stability passes the classifier's gate
    ([> 0.7]) exactly when the mean of the two hands' movements is below
    0.03, and it is 0 exactly when that mean is at least 0.1. *)
Lemma stability_thresholds (prev : Tracker.PreviousHands) (l r : Hand) :
  (0.7 < fst (Tracker.calculateHandStability (Some prev) l r)
   <-> (calculateHandMovement l (Tracker.left prev)
        + calculateHandMovement r (Tracker.right prev)) / 2 < 0.03)
  /\ (fst (Tracker.calculateHandStability (Some prev) l r) = 0
      <-> 0.1 <= (calculateHandMovement l (Tracker.left prev)
                  + calculateHandMovement r (Tracker.right prev)) / 2).
Proof.
  cbn [Tracker.calculateHandStability fst].
  set (m := (calculateHandMovement l (Tracker.left prev)
             + calculateHandMovement r (Tracker.right prev)) / 2).
  unfold Rmax. destruct (Rle_dec 0 (1 - m * 10)); repeat split; intros; lra.
Qed.

End GeometryProofs.

(** ** More on the classifier *)

Module ClassifierExtras.
Import Tracker ClassifierLemmas.

(** X5: Without stored hands, that is on the first two-hand frame,
    [detectBasicGesture] never detects: whatever the hands, a returned result
    has [detected = false] and confidence 0. *)
Theorem first_frame_never_detects (hands : option (list Hand))
    (res : GestureResult) (prev' : option PreviousHands) :
  detectBasicGesture None hands = Normal (res, prev') ->
  detected res = false /\ confidence res = 0.
Proof.
  intros H.
  destruct hands as [[|l [|r [|x xs]]]|];
    try (cbn in H; injection H as <- <-; split; reflexivity).
  destruct l as [|w1 l]; [discriminate|].
  destruct r as [|w2 r]; [discriminate|].
  rewrite detectBasicGesture_two_hands in H. injection H as <- <-.
  cbn [detected confidence calculateHandStability fst].
  assert (Hd : fst (gestureScore (calculateDistance w1 w2)
                      (calculateDistance (calculateHandCenter (w1 :: l))
                         (calculateHandCenter (w2 :: r))) 0.5) = false).
  { destruct (fst (gestureScore _ _ 0.5)) eqn:E; [|reflexivity].
    apply gestureScore_detected in E. lra. }
  split; [exact Hd | apply gestureScore_undetected; exact Hd].
Qed.

Lemma first_frame_never_detects_witness :
  exists res prev',
    detectBasicGesture None (Some Sample.closeHands) = Normal (res, prev')
    /\ detected res = false /\ confidence res = 0.
Proof.
  eexists. eexists. split; [apply SampleFacts.detect_handAt|].
  exact (first_frame_never_detects _ _ _
           (SampleFacts.detect_handAt None 0.49 0.51)).
Defined.

(** X6: [detectBasicGesture] throws exactly when it is given two hands of which
    one has no landmark; it then has stored nothing. *)
Theorem throws_iff_empty_hand (prev : option PreviousHands)
    (hands : option (list Hand)) :
  detectBasicGesture prev hands = Throw
  <-> exists l r, hands = Some [l; r] /\ (l = [] \/ r = []).
Proof.
  split.
  - intros H.
    destruct hands as [[|l [|r [|x xs]]]|]; try discriminate.
    exists l, r. split; [reflexivity|].
    destruct l as [|w1 l]; [left; reflexivity|].
    destruct r as [|w2 r]; [right; reflexivity|].
    rewrite detectBasicGesture_two_hands in H. discriminate.
  - intros (l & r & -> & [-> | ->]); [reflexivity|].
    destruct l; reflexivity.
Qed.

(** X7: A returned confidence lies in [[0, 1]], and a confidence above the
    trigger threshold 0.8 is only given to a detected gesture of two hands
    whose wrists are less than 1/14 apart. *)
Theorem confidence_bounds (prev prev' : option PreviousHands)
    (hands : option (list Hand)) (res : GestureResult) :
  detectBasicGesture prev hands = Normal (res, prev') ->
  0 <= confidence res <= 1
  /\ (0.8 < confidence res ->
      detected res = true
      /\ exists w1 l w2 r,
           hands = Some [w1 :: l; w2 :: r]
           /\ calculateDistance w1 w2 < 1 / 14).
Proof.
  intros H. destruct (detectBasicGesture_measured _ _ _ _ H)
    as [(Hd & Hc & _) | (w1 & l & w2 & r & Hh & Hd & Hc & _)].
  - rewrite Hc. split; [lra|]. intros; lra.
  - pose proof (calculateHandStability_range prev (w1 :: l) (w2 :: r)) as Hs.
    pose proof (calculateDistance_nonneg w1 w2) as Hwd.
    destruct (detected res) eqn:D.
    + symmetry in Hd. rewrite Hc, gestureScore_when_detected by exact Hd.
      apply gestureScore_detected in Hd. destruct Hd as (? & ? & ?).
      split.
      * split_real_cases; lra.
      * intros Hhigh. split; [reflexivity|].
        exists w1, l, w2, r. split; [exact Hh|].
        split_real_cases; lra.
    + symmetry in Hd. rewrite Hc, (gestureScore_undetected _ _ _ Hd).
      split; [lra|]. intros; lra.
Qed.

Lemma confidence_bounds_witness :
  exists res prev',
    detectBasicGesture (Some Sample.storedClose) (Some Sample.closeHands)
    = Normal (res, prev')
    /\ 0 <= confidence res <= 1
    /\ (0.8 < confidence res ->
        detected res = true
        /\ exists w1 l w2 r,
             Some Sample.closeHands = Some [w1 :: l; w2 :: r]
             /\ calculateDistance w1 w2 < 1 / 14).
Proof.
  eexists. eexists. split; [exact SampleFacts.closeHands_classified|].
  exact (confidence_bounds _ _ _ _ SampleFacts.closeHands_classified).
Defined.

(** X4: In terms of the raw measurements: with stored hands, two non-empty
    hands are classified as a gesture exactly when their wrists are less than
    0.25 apart, their centres less than 0.20 apart, and the mean of their two
    movements since the stored frame is below 0.03; the hands are stored in
    every case. *)
Theorem detection_criterion (prev : PreviousHands)
    (w1 w2 : Point3D) (l r : Hand) :
  exists res,
    detectBasicGesture (Some prev) (Some [w1 :: l; w2 :: r])
    = Normal (res, Some {| left := w1 :: l; right := w2 :: r |})
    /\ (detected res = true
        <-> calculateDistance w1 w2 < 0.25
            /\ calculateDistance (calculateHandCenter (w1 :: l))
                 (calculateHandCenter (w2 :: r)) < 0.20
            /\ (calculateHandMovement (w1 :: l) (left prev)
                + calculateHandMovement (w2 :: r) (right prev)) / 2 < 0.03).
Proof.
  eexists. split; [apply detectBasicGesture_two_hands|].
  cbn [detected]. rewrite gestureScore_detected.
  pose proof (GeometryProofs.stability_thresholds prev (w1 :: l) (w2 :: r))
    as (Hgate & _).
  rewrite Hgate. reflexivity.
Qed.

End ClassifierExtras.

(** ** More on frame processing *)

Module FrameProofs.
Import Tracker ClassifierLemmas Display.

Lemma spawn_activates (random : nat -> R) (cx cy scale now : R)
    (handle : positive) (s : ParticleSystem.State) :
  ParticleSystem.isActive
    (ParticleSystem.spawnTigerConstellation random cx cy scale now handle s)
  = true
  /\ ParticleSystem.animationId
       (ParticleSystem.spawnTigerConstellation random cx cy scale now handle s)
     <> None.
Proof.
  unfold ParticleSystem.spawnTigerConstellation.
  destruct (ParticleSystem.pushParticles random _ _ _ _ _ _ _) as [ps d].
  unfold ParticleSystem.startAnimation. cbn [ParticleSystem.animationId].
  destruct (ParticleSystem.animationId s) eqn:E; cbn; rewrite ?E;
    split; try reflexivity; discriminate.
Qed.

Section WithRandom.

Variable random : nat -> R.

(** X8: A spawn is never logged without cause: whenever a frame logs one, the
    frame had exactly two hands, the gesture state it leaves says
    [detected] with a confidence above 0.8 and has this frame's time as its
    last trigger, and the particle system holds the 43 new particles with
    its loop running. *)
Theorem spawn_is_justified (f : Frame) (t : State) :
  snd (onResults random f t) <> [] ->
  length (multiHandLandmarks f) = 2%nat
  /\ stateDetected (gestureState (fst (onResults random f t))) = true
  /\ 0.8 < stateConfidence (gestureState (fst (onResults random f t)))
  /\ lastTrigger (gestureState (fst (onResults random f t)))
     = Some (dateNow f)
  /\ exists ps,
       particleSystem (fst (onResults random f t)) = Some ps
       /\ length (ParticleSystem.particles ps) = 43%nat
       /\ ParticleSystem.isActive ps = true
       /\ ParticleSystem.animationId ps <> None.
Proof.
  unfold onResults, processGestures. cbn [currentHands previousHands].
  destruct (multiHandLandmarks f) as [|l [|r [|x xs]]];
    try (cbn; intros H; exfalso; apply H; reflexivity).
  destruct l as [|w1 l]; [cbn; intros H; exfalso; apply H; reflexivity|].
  destruct r as [|w2 r]; [cbn; intros H; exfalso; apply H; reflexivity|].
  cbn [length Nat.eqb]. rewrite detectBasicGesture_two_hands.
  cbn [bind detected confidence metrics].
  match goal with |- context [if ?b then _ else _] => destruct b eqn:Q end;
    [|cbn; intros H; exfalso; apply H; reflexivity].
  apply andb_true_iff in Q. destruct Q as (Qd & Qc). apply Rltb_true in Qc.
  unfold cooldownElapsed, setGesture. cbn [gestureState lastTrigger].
  unfold triggerTigerConstellation. cbn [particleSystem currentHands].
  destruct (particleSystem t) as [ps|];
    [|cbn; intros H; exfalso; apply H; reflexivity].
  cbn [fst snd setLastTrigger setGesture gestureState stateDetected
         stateConfidence lastTrigger particleSystem previousHands].
  intros _. repeat split; try assumption.
  eexists. split; [reflexivity|].
  rewrite ParticleLemmas.spawn_particles, ParticleLemmas.pushParticles_length.
  split; [reflexivity|]. apply spawn_activates.
Qed.

Lemma onResults_two_hands_current (f : Frame) (t : State)
    (w1 w2 : Point3D) (l r : Hand) :
  multiHandLandmarks f = [w1 :: l; w2 :: r] ->
  currentHands (fst (onResults random f t)) = [w1 :: l; w2 :: r].
Proof.
  intros Hh. unfold onResults, processGestures.
  cbn [currentHands previousHands]. rewrite Hh. cbn [length Nat.eqb].
  rewrite detectBasicGesture_two_hands. cbn [bind detected confidence metrics].
  match goal with |- context [if ?b then _ else _] => destruct b end.
  - unfold cooldownElapsed, setGesture. cbn [gestureState lastTrigger].
    unfold triggerTigerConstellation. cbn [particleSystem currentHands].
    destruct (particleSystem t); reflexivity.
  - reflexivity.
Qed.

(** X11: Calibration right after a processed two-hand frame measures that
    frame's hands against themselves: it always prints a stability of 1,
    however much the hands were moving, and leaves the tracker as it was. *)
Theorem calibration_reports_full_stability (f : Frame) (t : State)
    (w1 w2 : Point3D) (l r : Hand) :
  multiHandLandmarks f = [w1 :: l; w2 :: r] ->
  exists res,
    calibrateTigerDetection (fst (onResults random f t))
    = Normal (fst (onResults random f t), Some res)
    /\ option_map stability (metrics res) = Some 1.
Proof.
  intros Hh.
  pose proof (onResults_two_hands_current f t _ _ _ _ Hh) as Hcur.
  destruct (TriggerLemmas.onResults_two_hands_state random f t _ _ _ _ Hh)
    as (Hprev & _).
  destruct (fst (onResults random f t)) as [cw ch cur gs prev ps].
  cbn [currentHands previousHands] in Hcur, Hprev. subst cur prev.
  unfold calibrateTigerDetection. cbn [currentHands previousHands].
  cbn [length Nat.eqb negb]. rewrite detectBasicGesture_two_hands.
  cbn [bind]. eexists. split; [reflexivity|].
  cbn [metrics option_map stability calculateHandStability fst left right].
  rewrite !GeometryProofs.calculateHandMovement_self. f_equal.
  unfold Rmax. destruct (Rle_dec 0 (1 - (0 + 0) / 2 * 10)); lra.
Qed.

End WithRandom.

Lemma spawn_is_justified_witness :
  length (multiHandLandmarks (Sample.frameAt 33 Sample.closeHands)) = 2%nat
  /\ stateDetected
       (gestureState
          (fst (onResults Sample.half (Sample.frameAt 33 Sample.closeHands)
                  (fst (onResults Sample.half
                          (Sample.frameAt 0 Sample.closeHands)
                          Sample.freshTracker)))))
     = true
  /\ 0.8 < stateConfidence
             (gestureState
                (fst (onResults Sample.half
                        (Sample.frameAt 33 Sample.closeHands)
                        (fst (onResults Sample.half
                                (Sample.frameAt 0 Sample.closeHands)
                                Sample.freshTracker)))))
  /\ lastTrigger
       (gestureState
          (fst (onResults Sample.half (Sample.frameAt 33 Sample.closeHands)
                  (fst (onResults Sample.half
                          (Sample.frameAt 0 Sample.closeHands)
                          Sample.freshTracker)))))
     = Some (dateNow (Sample.frameAt 33 Sample.closeHands))
  /\ exists ps,
       particleSystem
         (fst (onResults Sample.half (Sample.frameAt 33 Sample.closeHands)
                 (fst (onResults Sample.half
                         (Sample.frameAt 0 Sample.closeHands)
                         Sample.freshTracker))))
       = Some ps
       /\ length (ParticleSystem.particles ps) = 43%nat
       /\ ParticleSystem.isActive ps = true
       /\ ParticleSystem.animationId ps <> None.
Proof.
  apply (spawn_is_justified Sample.half (Sample.frameAt 33 Sample.closeHands)).
  assert (Hf : forall n,
            multiHandLandmarks (Sample.frameAt n Sample.closeHands)
            = [mkPoint 0.49 0.5 0 :: repeat (mkPoint 0.49 0.5 0) 20;
               mkPoint 0.51 0.5 0 :: repeat (mkPoint 0.51 0.5 0) 20])
    by reflexivity.
  destruct (TriggerLemmas.onResults_two_hands_log Sample.half _
              Sample.freshTracker _ _ _ _ _ (Hf 0%Z) eq_refl)
    as ((ps' & Hps') & _).
  destruct (TriggerLemmas.onResults_two_hands_state Sample.half _
              Sample.freshTracker _ _ _ _ (Hf 0%Z)) as (Hprev & _).
  destruct (TriggerLemmas.onResults_two_hands_log Sample.half _
              (fst (onResults Sample.half (Sample.frameAt 0 Sample.closeHands)
                      Sample.freshTracker)) _ _ _ _ ps' (Hf 33%Z) Hps')
    as (_ & Hlog & _).
  destruct (Hlog (TriggerProofs.qualifies_closeHands _ Hprev)) as (e & ->).
  discriminate.
Defined.

Lemma calibration_witness :
  exists res,
    calibrateTigerDetection
      (fst (onResults Sample.half (Sample.frameAt 0 Sample.closeHands)
              Sample.freshTracker))
    = Normal
        (fst (onResults Sample.half (Sample.frameAt 0 Sample.closeHands)
                Sample.freshTracker),
         Some res)
    /\ option_map stability (metrics res) = Some 1.
Proof.
  apply (calibration_reports_full_stability Sample.half
           (Sample.frameAt 0 Sample.closeHands) Sample.freshTracker
           (mkPoint 0.49 0.5 0) (mkPoint 0.51 0.5 0)
           (repeat (mkPoint 0.49 0.5 0) 20) (repeat (mkPoint 0.51 0.5 0) 20)).
  reflexivity.
Defined.

Lemma detect_no_hand (prev : option PreviousHands) :
  detectBasicGesture prev (Some [])
  = Normal ({| detected := false; confidence := 0; metrics := None;
               reason := "Need exactly 2 hands"%string |}, prev).
Proof. reflexivity. Qed.

Lemma detect_one_hand (prev : option PreviousHands) (h : Hand) :
  detectBasicGesture prev (Some [h])
  = Normal ({| detected := false; confidence := 0; metrics := None;
               reason := "Need exactly 2 hands"%string |}, prev).
Proof. reflexivity. Qed.

(** X12: The two assertions of the built-in self-test can never fail, and the
    test prints a current result exactly when two hands are in view. *)
Theorem self_test_assertions_hold (t t' : State) (failed : list string)
    (report : option GestureResult) :
  runTigerDetectionTests t = Normal (t', failed, report) ->
  failed = []
  /\ (report = None <-> length (currentHands t) <> 2%nat).
Proof.
  unfold runTigerDetectionTests. rewrite detect_no_hand. cbn [bind detected].
  destruct (currentHands t) as [|h0 [|h1 [|x xs]]];
    rewrite ?detect_one_hand; cbn [bind detected length Nat.eqb app];
    try (intros H; injection H as _ <- <-; split; [reflexivity|];
         split; intros; cbn in *; try reflexivity; lia).
  destruct (detectBasicGesture (previousHands t) (Some [h0; h1]))
    as [[res p]|] eqn:E; cbn [bind]; [|discriminate].
  intros H. injection H as _ <- <-. split; [reflexivity|].
  split; [discriminate | intros Hn; exfalso; apply Hn; reflexivity].
Qed.

Lemma self_test_witness :
  @nil string = [] /\ (@None GestureResult = None <-> 0%nat <> 2%nat).
Proof.
  exact (self_test_assertions_hold Sample.freshTracker _ _ _ eq_refl).
Defined.

Lemma drawSegments_in_range (table : list (nat * nat)) (landmarks : Hand) :
  Forall (fun se => (fst se < length landmarks)%nat
                    /\ (snd se < length landmarks)%nat) table ->
  drawSegments table landmarks = Normal tt.
Proof.
  induction 1 as [|[s e] table (Hs & He) _ IH]; [reflexivity|].
  cbn [drawSegments fst snd] in *. unfold landmarkAt.
  destruct (nth_error landmarks s) eqn:Es;
    [|apply nth_error_None in Es; lia].
  destruct (nth_error landmarks e) eqn:Ee;
    [|apply nth_error_None in Ee; lia].
  exact IH.
Qed.

Lemma drawSegments_out_of_range (table : list (nat * nat)) (landmarks : Hand)
    (s e : nat) :
  In (s, e) table ->
  (length landmarks <= e)%nat ->
  drawSegments table landmarks = Throw.
Proof.
  induction table as [|[s' e'] table IH]; intros Hin He; [contradiction|].
  cbn [drawSegments]. unfold landmarkAt at 1.
  destruct (nth_error landmarks s'); [|reflexivity]. cbn [bind].
  unfold landmarkAt at 1.
  destruct (nth_error landmarks e') eqn:Ee'; [|reflexivity]. cbn [bind].
  destruct Hin as [Heq | Hin]; [|exact (IH Hin He)].
  injection Heq as -> ->.
  assert (nth_error landmarks e = None) by (apply nth_error_None; exact He).
  congruence.
Qed.

(** Drawing a hand succeeds exactly when it has at least 21 landmarks. *)
Lemma drawHandLandmarks_spec (landmarks : Hand) :
  ((21 <= length landmarks)%nat -> drawHandLandmarks landmarks = Normal tt)
  /\ ((length landmarks < 21)%nat -> drawHandLandmarks landmarks = Throw).
Proof.
  unfold drawHandLandmarks, drawHandConnections. split; intros Hlen.
  - rewrite drawSegments_in_range.
    + cbn [bind]. unfold landmarkAt.
      destruct (nth_error landmarks 0) eqn:E; [reflexivity|].
      apply nth_error_None in E. lia.
    + unfold connections. repeat constructor; cbn [fst snd]; lia.
  - rewrite (drawSegments_out_of_range connections landmarks 19 20);
      [reflexivity | unfold connections; cbn; tauto | lia].
Qed.

Lemma drawLandmarks_spec (hands : list Hand) :
  (Forall (fun h => (21 <= length h)%nat) hands ->
   drawLandmarks hands = Normal tt)
  /\ (Exists (fun h => (length h < 21)%nat) hands ->
      drawLandmarks hands = Throw).
Proof.
  split.
  - induction 1 as [|h hands Hh _ IH]; [reflexivity|].
    cbn [drawLandmarks].
    rewrite (proj1 (drawHandLandmarks_spec h) Hh). exact IH.
  - induction hands as [|h hands IH]; intros Hex; [inversion Hex|].
    cbn [drawLandmarks].
    destruct (Nat.lt_ge_cases (length h) 21) as [Hshort | Hlong].
    + rewrite (proj2 (drawHandLandmarks_spec h) Hshort). reflexivity.
    + rewrite (proj1 (drawHandLandmarks_spec h) Hlong). cbn [bind].
      apply IH. inversion Hex; subst; [lia | assumption].
Qed.

Section Drawn.

Variable random : nat -> R.

(** X9: A frame in which some hand has fewer than 21 landmarks is dropped while
    it is drawn: the hands are stored as current, but the gesture state, the
    stored previous hands and the particle system stay as they were and
    nothing spawns.  A frame whose hands all have at least 21 landmarks is
    processed exactly as by the gesture step alone. *)
Theorem short_hand_frame_is_dropped (f : Frame) (t : State) :
  (Exists (fun h => (length h < 21)%nat) (multiHandLandmarks f) ->
   onResultsDrawn random f t
   = ({| canvasWidth := canvasWidth t; canvasHeight := canvasHeight t;
         currentHands := multiHandLandmarks f;
         gestureState := gestureState t;
         previousHands := previousHands t;
         particleSystem := particleSystem t |}, []))
  /\ (Forall (fun h => (21 <= length h)%nat) (multiHandLandmarks f) ->
      onResultsDrawn random f t = onResults random f t).
Proof.
  unfold onResultsDrawn, onResults. split; intros H.
  - rewrite (proj2 (drawLandmarks_spec _) H). reflexivity.
  - rewrite (proj1 (drawLandmarks_spec _) H). reflexivity.
Qed.

(** X10: When the particle system exists, two non-empty hands are in view, their
    landmarks have [x] and [y] in [[0, 1]] and the canvas has non-negative
    sides, [triggerTigerConstellation] logs exactly one spawn, centred on the
    canvas: [0 <= centerX <= width] and [0 <= centerY <= height]. *)
Theorem spawn_centre_on_canvas (f : Frame) (t : State)
    (ps : ParticleSystem.State) (hand0 hand1 : Hand) :
  particleSystem t = Some ps ->
  currentHands t = [hand0; hand1] ->
  hand0 <> [] -> hand1 <> [] ->
  Forall (fun p => 0 <= px p <= 1 /\ 0 <= py p <= 1) (hand0 ++ hand1) ->
  0 <= canvasWidth t -> 0 <= canvasHeight t ->
  exists centerX centerY,
    snd (triggerTigerConstellation random f t) = [TigerSpawned centerX centerY]
    /\ 0 <= centerX <= canvasWidth t
    /\ 0 <= centerY <= canvasHeight t.
Proof.
  intros Hps Hcur H0 H1 Hall Hw Hh.
  apply Forall_app in Hall. destruct Hall as (Hall0 & Hall1).
  unfold triggerTigerConstellation. rewrite Hps, Hcur.
  eexists. eexists. split; [reflexivity|].
  unfold calculateHandCenter. cbn [px py].
  assert (Hx0 : 0 <= sumOver px hand0 / INR (length hand0) <= 1).
  { apply GeometryProofs.mean_in_range; [exact H0|].
    eapply Forall_impl; [|exact Hall0]. cbv beta. intros ? ?; tauto. }
  assert (Hx1 : 0 <= sumOver px hand1 / INR (length hand1) <= 1).
  { apply GeometryProofs.mean_in_range; [exact H1|].
    eapply Forall_impl; [|exact Hall1]. cbv beta. intros ? ?; tauto. }
  assert (Hy0 : 0 <= sumOver py hand0 / INR (length hand0) <= 1).
  { apply GeometryProofs.mean_in_range; [exact H0|].
    eapply Forall_impl; [|exact Hall0]. cbv beta. intros ? ?; tauto. }
  assert (Hy1 : 0 <= sumOver py hand1 / INR (length hand1) <= 1).
  { apply GeometryProofs.mean_in_range; [exact H1|].
    eapply Forall_impl; [|exact Hall1]. cbv beta. intros ? ?; tauto. }
  split; split; nra.
Qed.

End Drawn.

Lemma spawn_centre_witness :
  exists centerX centerY,
    snd (triggerTigerConstellation Sample.half
           (Sample.frameAt 33 Sample.closeHands)
           {| canvasWidth := 640; canvasHeight := 480;
              currentHands := Sample.closeHands;
              gestureState := gestureState Sample.freshTracker;
              previousHands := Some Sample.storedClose;
              particleSystem := Some Sample.freshParticles |})
    = [TigerSpawned centerX centerY]
    /\ 0 <= centerX <= 640
    /\ 0 <= centerY <= 480.
Proof.
  apply (spawn_centre_on_canvas Sample.half
           (Sample.frameAt 33 Sample.closeHands)
           {| canvasWidth := 640; canvasHeight := 480;
              currentHands := Sample.closeHands;
              gestureState := gestureState Sample.freshTracker;
              previousHands := Some Sample.storedClose;
              particleSystem := Some Sample.freshParticles |}
           Sample.freshParticles (Sample.handAt 0.49) (Sample.handAt 0.51));
    try reflexivity; try discriminate; try (cbn; lra).
  apply Forall_forall. intros p Hp. apply in_app_or in Hp.
  destruct Hp as [Hp | Hp]; apply repeat_spec in Hp; subst p; cbn; lra.
Defined.

End FrameProofs.

(** ** More on the particle system *)

Module ParticleExtras.
Import ParticleSystem ParticleLemmas.

(** X13: [getRandomTigerColor] maps a draw to the colour whose cumulative weight
    bracket holds it: up to 0.3 the first orange, then up to 0.55, 0.75, 0.9
    and 0.98 the next four, up to 1 the dark stripe colour; only a draw above
    1, which [Math.random] never makes, reaches the fallback. *)
Theorem color_brackets (r : R) :
  (r <= 0.3 -> getRandomTigerColor r = "#FF6B35"%string)
  /\ (0.3 < r <= 0.55 -> getRandomTigerColor r = "#FF8C42"%string)
  /\ (0.55 < r <= 0.75 -> getRandomTigerColor r = "#FF5722"%string)
  /\ (0.75 < r <= 0.9 -> getRandomTigerColor r = "#FFD700"%string)
  /\ (0.9 < r <= 0.98 -> getRandomTigerColor r = "#FFA000"%string)
  /\ (0.98 < r <= 1 -> getRandomTigerColor r = "#2C1810"%string)
  /\ (1 < r -> getRandomTigerColor r = "#FF6B35"%string).
Proof.
  unfold getRandomTigerColor, tigerColors, pickColor, Rltb.
  repeat split; intros H;
    repeat match goal with
           | |- context [Rlt_dec ?a ?b] => destruct (Rlt_dec a b); try lra
           end; reflexivity.
Qed.

Lemma updateParticle_alpha_range (a m : R) :
  (0 <= a <-> 0 <= alphaOf (phaseOf a m) a m)
  /\ alphaOf (phaseOf a m) a m <= 1.
Proof.
  unfold alphaOf, phaseOf, Rltb.
  destruct (Rlt_dec a 500); [|destruct (Rlt_dec a (m - 1000))];
    unfold Rmin, Rmax;
    repeat match goal with
           | |- context [Rle_dec ?u ?v] => destruct (Rle_dec u v)
           end;
    repeat split; intros; lra.
Qed.

(** X14: After a tick, a particle's alpha never exceeds 1, and it is
    non-negative exactly when the particle's new age is: only a tick that
    runs time backwards below age 0 produces a negative alpha. *)
Theorem alpha_is_an_opacity (dt : R) (p : Particle) :
  (0 <= age (updateParticle dt p) <-> 0 <= alpha (updateParticle dt p))
  /\ alpha (updateParticle dt p) <= 1.
Proof.
  rewrite updateParticle_alpha, updateParticle_age.
  apply updateParticle_alpha_range.
Qed.

Lemma pickColor_in_table (r : R) (table : list (R * string)) :
  In (pickColor r table) ("#FF6B35"%string :: map snd table).
Proof.
  revert r. induction table as [|[w c] table IH]; intros r;
    cbn [pickColor map snd]; [left; reflexivity|].
  destruct (Rltb 0 (r - w)).
  - destruct (IH (r - w)) as [H | H]; [left; exact H | right; right; exact H].
  - right. left. reflexivity.
Qed.

Section WithRandom.

Variable random : nat -> R.
Hypothesis random_range : forall n, 0 <= random n < 1.

(** X15: Every particle a spawn creates is within the documented ranges: radius
    in [[3, 7)], each velocity component in [[-1, 1)], start position less
    than 10 away from its target on each axis, rotation in [[0, 2 pi)],
    angular speed in [[-0.05, 0.05)], and a colour of the palette. *)
Theorem spawned_particle_ranges (cx cy scale now : R) (handle : positive)
    (s : State) :
  Forall (fun p =>
            3 <= size p < 7
            /\ -1 <= velocityX p < 1 /\ -1 <= velocityY p < 1
            /\ -10 <= x p - targetX p < 10 /\ -10 <= y p - targetY p < 10
            /\ 0 <= rotation p < 2 * PI
            /\ -0.05 <= rotationSpeed p < 0.05
            /\ In (color p) (map snd tigerColors))
    (particles (spawnTigerConstellation random cx cy scale now handle s)).
Proof.
  rewrite spawn_particles. apply pushParticles_Forall; [|constructor].
  intros pt i d.
  cbn [makeParticle size velocityX velocityY x y targetX targetY rotation
         rotationSpeed color].
  pose proof (random_range d). pose proof (random_range (d + 1)).
  pose proof (random_range (d + 2)). pose proof (random_range (d + 4)).
  pose proof (random_range (d + 5)). pose proof (random_range (d + 6)).
  pose proof (random_range (d + 7)) as H7. pose proof PI_RGT_0 as Hpi.
  repeat match goal with |- _ /\ _ => split end; try lra.
  - apply Rmult_le_pos; [apply Rmult_le_pos|]; lra.
  - replace (2 * PI) with (1 * PI * 2) by ring.
    apply Rmult_lt_compat_r; [lra|]. apply Rmult_lt_compat_r; lra.
  - destruct (pickColor_in_table (random (d + 3)) tigerColors) as [H' | H'];
      [|exact H'].
    unfold getRandomTigerColor. rewrite <- H'. cbn. left. reflexivity.
Qed.

End WithRandom.

Lemma spawned_particle_ranges_witness :
  Forall (fun p =>
            3 <= size p < 7
            /\ -1 <= velocityX p < 1 /\ -1 <= velocityY p < 1
            /\ -10 <= x p - targetX p < 10 /\ -10 <= y p - targetY p < 10
            /\ 0 <= rotation p < 2 * PI
            /\ -0.05 <= rotationSpeed p < 0.05
            /\ In (color p) (map snd tigerColors))
    (particles
       (spawnTigerConstellation Sample.half 320 240 1 0 1%positive
          Sample.freshParticles)).
Proof.
  apply (spawned_particle_ranges Sample.half).
  intros n. unfold Sample.half. lra.
Defined.

End ParticleExtras.

(** ** The particle engine over whole runs *)

Module EngineProofs.
Import ParticleSystem ParticleLemmas Engine.

Lemma steps_cons (random : nat -> R) (op : Op) (ops : list Op) (s : State) :
  steps random (op :: ops) s = steps random ops (step random s op).
Proof. reflexivity. Qed.

(** An invariant of every step, true at the start, holds after any run. *)
Lemma steps_invariant (random : nat -> R) (P : State -> Prop) :
  (forall s op, P s -> P (step random s op)) ->
  forall ops s, P s -> P (steps random ops s).
Proof.
  intros Hstep. induction ops as [|op ops IH]; intros s Hs; [exact Hs|].
  rewrite steps_cons. apply IH. apply Hstep. exact Hs.
Qed.

Lemma spawn_state (random : nat -> R) (cx cy scale now : R)
    (handle : positive) (s : State) :
  length (particles (spawnTigerConstellation random cx cy scale now handle s))
  = 43%nat
  /\ isActive (spawnTigerConstellation random cx cy scale now handle s) = true
  /\ animationId (spawnTigerConstellation random cx cy scale now handle s)
     <> None.
Proof.
  split.
  - rewrite spawn_particles, pushParticles_length. reflexivity.
  - apply FrameProofs.spawn_activates.
Qed.

Lemma animate_cases (time : R) (handle : positive) (s : State) :
  (isActive s = false /\ animate time handle s = s)
  \/ (isActive s = true
      /\ particles (animate time handle s)
         = updateParticles (time - lastTime s) (particles s)
      /\ lastTime (animate time handle s) = time
      /\ ((particles (animate time handle s) = []
           /\ isActive (animate time handle s) = false
           /\ animationId (animate time handle s) = None)
          \/ (particles (animate time handle s) <> []
              /\ isActive (animate time handle s) = true
              /\ animationId (animate time handle s) = Some handle))).
Proof.
  unfold animate. destruct (isActive s) eqn:Ha; cbn [negb];
    [right | left; split; reflexivity].
  split; [reflexivity|].
  destruct (updateParticles (time - lastTime s) (particles s)) eqn:E;
    cbn [particles lastTime isActive animationId].
  - repeat split. left. repeat split.
  - repeat split. right. repeat split. discriminate.
Qed.

(** X16: Over any run of spawns, frame callbacks, stops and resizes from a newly
    constructed particle system, the engine is either idle (no particle, not
    active, no frame requested) or running (particles, active, a frame
    requested): the loop is scheduled exactly while there is something to
    animate. *)
Theorem engine_idle_or_running (random : nat -> R) (ops : list Op)
    (width height : R) :
  (particles (steps random ops (constructed width height)) = []
   /\ isActive (steps random ops (constructed width height)) = false
   /\ animationId (steps random ops (constructed width height)) = None)
  \/ (particles (steps random ops (constructed width height)) <> []
      /\ isActive (steps random ops (constructed width height)) = true
      /\ animationId (steps random ops (constructed width height)) <> None).
Proof.
  apply (steps_invariant random
           (fun s => (particles s = [] /\ isActive s = false
                      /\ animationId s = None)
                     \/ (particles s <> [] /\ isActive s = true
                         /\ animationId s <> None)));
    [|left; repeat split].
  intros s [cx cy scale now handle | time handle | | w h] Hs; cbn [step].
  - right. destruct (spawn_state random cx cy scale now handle s)
      as (Hlen & Hact & Hid).
    repeat split; try assumption.
    intros E. rewrite E in Hlen. discriminate.
  - destruct (animate_cases time handle s)
      as [(_ & ->) | (_ & _ & _ & [H | (Hp & Ha & Hi)])];
      [exact Hs | left; exact H | right].
    repeat split; try assumption. rewrite Hi. discriminate.
  - left. repeat split.
  - exact Hs.
Qed.

Lemma NoDup_map_filter {A B : Type} (f : A -> B) (g : A -> bool)
    (l : list A) :
  NoDup (map f l) -> NoDup (map f (filter g l)).
Proof.
  induction l as [|a l IH]; intros H; [constructor|].
  cbn [map] in H. inversion H as [|? ? Hnotin Hnd]; subst.
  cbn [filter]. destruct (g a); [|apply IH; exact Hnd].
  cbn [map]. constructor; [|apply IH; exact Hnd].
  intros Hin. apply Hnotin. apply in_map_iff in Hin.
  destruct Hin as (b & Hb & Hin). apply filter_In in Hin.
  apply in_map_iff. exists b. tauto.
Qed.

Lemma updateParticles_ids (dt : R) (ps : list Particle) :
  (length (updateParticles dt ps) <= length ps)%nat
  /\ (NoDup (map id ps) -> NoDup (map id (updateParticles dt ps)))
  /\ (forall n, Forall (fun p => (id p < n)%nat) ps ->
                Forall (fun p => (id p < n)%nat) (updateParticles dt ps)).
Proof.
  unfold updateParticles. split; [|split].
  - eapply Nat.le_trans; [apply filter_length_le|].
    rewrite length_map. apply Nat.le_refl.
  - intros H. apply NoDup_map_filter. rewrite map_map.
    rewrite (map_ext _ id) by reflexivity. exact H.
  - intros n H. rewrite Forall_forall in *. intros q Hq.
    apply filter_In in Hq. destruct Hq as (Hq & _).
    apply in_map_iff in Hq. destruct Hq as (p & <- & Hp).
    exact (H p Hp).
Qed.

Lemma pushParticles_ids (random : nat -> R) (cx cy sc : R)
    (tpl : list Anchor) :
  forall (i d : nat) (acc : list Particle),
    map id (fst (pushParticles random cx cy sc tpl i d acc))
    = map id acc ++ seq i (length tpl).
Proof.
  induction tpl as [|a tpl IH]; intros i d acc; cbn [pushParticles].
  - cbn. rewrite app_nil_r. reflexivity.
  - rewrite IH, map_app, <- app_assoc. reflexivity.
Qed.

(** X17: After any run from a newly constructed particle system there are at
    most 43 live particles, below the declared [maxParticles] of 100, and
    they carry pairwise distinct ids below 43. *)
Theorem engine_particles_bounded (random : nat -> R) (ops : list Op)
    (width height : R) :
  (length (particles (steps random ops (constructed width height))) <= 43)%nat
  /\ NoDup (map id (particles (steps random ops (constructed width height))))
  /\ Forall (fun p => (id p < 43)%nat)
       (particles (steps random ops (constructed width height))).
Proof.
  apply (steps_invariant random
           (fun s => (length (particles s) <= 43)%nat
                     /\ NoDup (map id (particles s))
                     /\ Forall (fun p => (id p < 43)%nat) (particles s)));
    [|cbn; repeat split; try constructor; lia].
  intros s [cx cy scale now handle | time handle | | w h] (Hl & Hn & Hf);
    cbn [step].
  - assert (Hids : map id (particles (spawnTigerConstellation random cx cy
                                        scale now handle s)) = seq 0 43).
    { rewrite spawn_particles, pushParticles_ids. reflexivity. }
    split; [|split].
    + rewrite <- (length_map id), Hids. cbn. lia.
    + rewrite Hids. apply seq_NoDup.
    + apply Forall_forall. intros p Hp.
      assert (Hin : In (id p) (seq 0 43))
        by (rewrite <- Hids; apply in_map; exact Hp).
      apply in_seq in Hin. lia.
  - destruct (animate_cases time handle s)
      as [(_ & ->) | (_ & -> & _)]; [repeat split; assumption|].
    destruct (updateParticles_ids (time - lastTime s) (particles s))
      as (Hl' & Hn' & Hf').
    split; [lia|]. split; [apply Hn'; exact Hn | apply Hf'; exact Hf].
  - cbn. repeat split; try constructor. lia.
  - cbn [resizeCanvas particles]. repeat split; assumption.
Qed.

(** X18: After a stop, frame callbacks and resizes change nothing but the canvas
    size: until the next spawn the particle set stays empty, the loop stays
    off, and not even the frame clock or the random draws advance. *)
Theorem stop_is_final (random : nat -> R) (ops : list Op) (s : State) :
  Forall (fun op => match op with Spawn _ _ _ _ _ => False | _ => True end)
    ops ->
  particles (steps random ops (stopAnimation s)) = []
  /\ isActive (steps random ops (stopAnimation s)) = false
  /\ animationId (steps random ops (stopAnimation s)) = None
  /\ lastTime (steps random ops (stopAnimation s)) = lastTime s
  /\ draws (steps random ops (stopAnimation s)) = draws s.
Proof.
  intros Hops.
  assert (Hgen : forall s0,
            particles s0 = [] /\ isActive s0 = false /\ animationId s0 = None
            /\ lastTime s0 = lastTime s /\ draws s0 = draws s ->
            particles (steps random ops s0) = []
            /\ isActive (steps random ops s0) = false
            /\ animationId (steps random ops s0) = None
            /\ lastTime (steps random ops s0) = lastTime s
            /\ draws (steps random ops s0) = draws s).
  { induction Hops as [|op ops Hop _ IH]; intros s0 Hs0; [exact Hs0|].
    rewrite steps_cons. apply IH.
    destruct Hs0 as (Hp & Ha & Hi & Hl & Hd).
    destruct op as [cx cy scale now handle | time handle | | w h];
      [contradiction| | |]; cbn [step].
    - unfold animate. rewrite Ha. cbn [negb]. repeat split; assumption.
    - cbn. repeat split; assumption.
    - cbn. repeat split; assumption. }
  apply Hgen. cbn. repeat split.
Qed.

Lemma stop_is_final_witness :
  particles
    (steps Sample.half [FrameCallback 16 2%positive; Resize 800 600]
       (stopAnimation
          (spawnTigerConstellation Sample.half 320 240 1 0 1%positive
             Sample.freshParticles)))
  = [].
Proof.
  apply (stop_is_final Sample.half
           [FrameCallback 16 2%positive; Resize 800 600]
           (spawnTigerConstellation Sample.half 320 240 1 0 1%positive
              Sample.freshParticles)).
  repeat constructor.
Defined.

Lemma updateParticles_all_dead (dt : R) (ps : list Particle) :
  Forall (fun p => maxAge p <= age p + dt) ps -> updateParticles dt ps = [].
Proof.
  unfold updateParticles. induction 1 as [|p ps Hp _ IH]; [reflexivity|].
  cbn [map filter]. unfold alive at 1.
  rewrite updateParticle_age, updateParticle_maxAge.
  rewrite (proj2 (Rltb_false _ _) Hp). exact IH.
Qed.

Section WithRandom.

Variable random : nat -> R.
Hypothesis random_range : forall n, 0 <= random n < 1.

(** While there are particles, they all have the age [lastTime - base] and a
    lifetime below eight seconds; otherwise the engine is idle. *)
Lemma animateAll_ages (base : R) (frames : list (R * positive)) :
  forall s : State,
    (particles s = [] /\ isActive s = false /\ animationId s = None)
    \/ (isActive s = true
        /\ Forall (fun p => age p = lastTime s - base /\ maxAge p < 8000)
             (particles s)) ->
    (particles (animateAll frames s) = []
     /\ isActive (animateAll frames s) = false
     /\ animationId (animateAll frames s) = None)
    \/ (isActive (animateAll frames s) = true
        /\ Forall (fun p => age p = lastTime (animateAll frames s) - base
                            /\ maxAge p < 8000)
             (particles (animateAll frames s))).
Proof.
  induction frames as [|[time handle] rest IH]; intros s Hs; [exact Hs|].
  cbn [animateAll]. apply IH.
  destruct (animate_cases time handle s)
    as [(Hoff & ->) | (Hon & Hps & Hlt & [Hidle | (_ & Hact & _)])];
    [exact Hs | left; exact Hidle | right].
  split; [exact Hact|].
  destruct Hs as [(_ & Hoff & _) | (_ & Hall)]; [congruence|].
  rewrite Hps, Hlt. rewrite Forall_forall in *. intros q Hq.
  apply updateParticles_In in Hq. destruct Hq as (p & Hp & -> & _).
  rewrite updateParticle_age, updateParticle_maxAge.
  destruct (Hall p Hp) as (Hage & Hmax). split; lra.
Qed.

(** X19: No constellation outlives eight seconds of frame time: after a spawn
    and any frame callbacks, the callback whose timestamp is at least 8000 ms
    past the frame clock the spawn left leaves no particle and switches the
    loop off. *)
Theorem constellation_expires (frames : list (R * positive))
    (cx cy scale now time : R) (handle handle' : positive) (s : State) :
  lastTime (spawnTigerConstellation random cx cy scale now handle s) + 8000
  <= time ->
  particles
    (animate time handle'
       (animateAll frames
          (spawnTigerConstellation random cx cy scale now handle s)))
  = []
  /\ isActive
       (animate time handle'
          (animateAll frames
             (spawnTigerConstellation random cx cy scale now handle s)))
     = false
  /\ animationId
       (animate time handle'
          (animateAll frames
             (spawnTigerConstellation random cx cy scale now handle s)))
     = None.
Proof.
  intros Hlate.
  set (s0 := spawnTigerConstellation random cx cy scale now handle s) in *.
  assert (H0 : (particles s0 = [] /\ isActive s0 = false
                /\ animationId s0 = None)
               \/ (isActive s0 = true
                   /\ Forall (fun p => age p = lastTime s0 - lastTime s0
                                       /\ maxAge p < 8000) (particles s0))).
  { right. split; [apply (spawn_state random cx cy scale now handle s)|].
    eapply Forall_impl;
      [|apply (spawned_particles_fresh random random_range)].
    cbv beta. intros p (Ha & _ & _ & Hm). split; lra. }
  pose proof (animateAll_ages (lastTime s0) frames s0 H0) as H1.
  set (s1 := animateAll frames s0) in *.
  destruct (animate_cases time handle' s1)
    as [(Hoff & ->) | (Hon & Hps & Hlt & Hcases)].
  - destruct H1 as [H1 | (Hon & _)]; [exact H1 | congruence].
  - destruct H1 as [(_ & Hoff & _) | (_ & Hall)]; [congruence|].
    assert (Hempty : particles (animate time handle' s1) = []).
    { rewrite Hps. apply updateParticles_all_dead.
      eapply Forall_impl; [|exact Hall]. cbv beta. intros p (Ha & Hm). lra. }
    destruct Hcases as [Hidle | (Hne & _)]; [exact Hidle | contradiction].
Qed.

End WithRandom.

Lemma constellation_expires_witness :
  particles
    (animate 8000 3%positive
       (animateAll [(16, 2%positive)]
          (spawnTigerConstellation Sample.half 320 240 1 0 1%positive
             Sample.freshParticles)))
  = []
  /\ isActive
       (animate 8000 3%positive
          (animateAll [(16, 2%positive)]
             (spawnTigerConstellation Sample.half 320 240 1 0 1%positive
                Sample.freshParticles)))
     = false
  /\ animationId
       (animate 8000 3%positive
          (animateAll [(16, 2%positive)]
             (spawnTigerConstellation Sample.half 320 240 1 0 1%positive
                Sample.freshParticles)))
     = None.
Proof.
  apply (constellation_expires Sample.half ParticleProofs.half_in_range
           [(16, 2%positive)] 320 240 1 0 8000 1%positive 3%positive
           Sample.freshParticles).
  replace (lastTime
             (spawnTigerConstellation Sample.half 320 240 1 0 1%positive
                Sample.freshParticles)) with 0.
  - lra.
  - unfold spawnTigerConstellation.
    destruct (pushParticles Sample.half _ _ _ _ _ _ _). reflexivity.
Defined.

End EngineProofs.

(** ** The frame-rate counter *)

Module MetricsProofs.
Import Display.

Lemma round_bounds (v : R) (n : nat) :
  0 <= v <= INR n -> (0 <= round v <= Z.of_nat n)%Z.
Proof.
  intros [Hlo Hhi]. unfold round.
  destruct (base_Int_part (v + 0.5)) as (Hle & Hgt).
  split.
  - assert (IZR (-1) < IZR (Int_part (v + 0.5))) by (simpl; lra).
    apply lt_IZR in H. lia.
  - assert (IZR (Int_part (v + 0.5)) < IZR (Z.of_nat n + 1)).
    { rewrite plus_IZR, <- INR_IZR_INZ. lra. }
    apply lt_IZR in H. lia.
Qed.

Lemma round_INR (n : nat) : round (INR n) = Z.of_nat n.
Proof.
  unfold round. symmetry. apply Int_part_spec.
  rewrite <- INR_IZR_INZ. lra.
Qed.

(** X20: [updatePerformanceMetrics] either counts the frame (less than a second
    since the window opened: rate and window start untouched) or closes the
    window: the count restarts at 0, the window restarts now, and the rate it
    publishes lies between 0 and the number of frames counted in the window,
    being exactly that number when the window lasted exactly one second. *)
Theorem frame_rate_bounded (currentTime : R) (m : Perf) :
  (currentTime < lastTime m + 1000 ->
   frameCount (updatePerformanceMetrics currentTime m) = S (frameCount m)
   /\ lastTime (updatePerformanceMetrics currentTime m) = lastTime m
   /\ fps (updatePerformanceMetrics currentTime m) = fps m)
  /\ (lastTime m + 1000 <= currentTime ->
      frameCount (updatePerformanceMetrics currentTime m) = 0%nat
      /\ lastTime (updatePerformanceMetrics currentTime m) = currentTime
      /\ (0 <= fps (updatePerformanceMetrics currentTime m)
          <= Z.of_nat (S (frameCount m)))%Z)
  /\ (currentTime = lastTime m + 1000 ->
      fps (updatePerformanceMetrics currentTime m)
      = Z.of_nat (S (frameCount m))).
Proof.
  unfold updatePerformanceMetrics.
  destruct (Rle_dec (lastTime m + 1000) currentTime) as [Hc | Ho];
    cbn [frameCount lastTime fps]; split; [|split| |split]; intros H;
    try lra; try (repeat split; reflexivity).
  - split; [reflexivity|]. split; [reflexivity|].
    apply round_bounds.
    assert (Hn : 0 < INR (S (frameCount m))) by (apply lt_0_INR; lia).
    assert (He : 0 < currentTime - lastTime m) by lra.
    assert (Hi : 0 < / (currentTime - lastTime m))
      by (apply Rinv_0_lt_compat; exact He).
    unfold Rdiv. split.
    + apply Rmult_le_pos; [|lra]. apply Rmult_le_pos; lra.
    + apply (Rmult_le_reg_r (currentTime - lastTime m)); [exact He|].
      rewrite Rmult_assoc, Rinv_l by lra. nra.
  - replace (currentTime - lastTime m) with 1000 by lra.
    replace (INR (S (frameCount m)) * 1000 / 1000)
      with (INR (S (frameCount m))) by field.
    apply round_INR.
Qed.

End MetricsProofs.
